(** * LinkedIn job search client: model and verified properties

    A shallow embedding of [src/linkedin_api.py] (class [LinkedInJobAPI]):
    the request built by [search_sap_jobs], the classification of the HTTP
    outcome, and the normalisation of the payload by [_parse_jobs].

    Python values are embedded as an inductive type, Python exceptions as the
    error side of a result monad, the [requests.get] call as a step on an
    explicit world (the clock, the server's answers and the log of calls). *)

From Stdlib Require Import ZArith String Ascii List.
From stdpp Require Import base option list gmap strings pretty.

Local Open Scope Z_scope.
Local Open Scope string_scope.
Set Warnings "-register-all".

(** ** Python values *)

(** A Python [float]: only its truth value ([x != 0.0]) is ever observed. *)
Inductive pyfloat :=
| FFinite (m e : Z)        (* m * 2^e *)
| FInf (negative : bool)
| FNaN.

(** The values [response.json()] can return. A [dict] keeps its items in
    insertion order; its keys are pairwise distinct, and a lookup takes the
    first item with the key. A [str] is a [string] with one character per
    code point. *)
Inductive pyval :=
| PyNone
| PyBool (b : bool)
| PyInt (n : Z)
| PyFloat (x : pyfloat)
| PyStr (s : string)
| PyList (l : list pyval)
| PyDict (d : list (string * pyval)).

(** [bool(v)] *)
Definition truthy (v : pyval) : bool :=
  match v with
  | PyNone => false
  | PyBool b => b
  | PyInt n => negb (n =? 0)%Z
  | PyFloat (FFinite m _) => negb (m =? 0)%Z
  | PyFloat _ => true
  | PyStr s => negb (String.eqb s "")
  | PyList l => match l with [] => false | _ => true end
  | PyDict d => match d with [] => false | _ => true end
  end.

(** [type(v).__name__] *)
Definition type_name (v : pyval) : string :=
  match v with
  | PyNone => "NoneType"
  | PyBool _ => "bool"
  | PyInt _ => "int"
  | PyFloat _ => "float"
  | PyStr _ => "str"
  | PyList _ => "list"
  | PyDict _ => "dict"
  end.

Definition is_str (v : pyval) : bool :=
  match v with PyStr _ => true | _ => false end.

Definition is_bool (v : pyval) : bool :=
  match v with PyBool _ => true | _ => false end.

(** [isinstance(v, list)] *)
Definition is_list (v : pyval) : bool :=
  match v with PyList _ => true | _ => false end.

(** ** Exceptions *)

(** The classes the [except] clauses of [search_sap_jobs] tell apart, and the
    built-in ones the modelled operations raise. All are subclasses of
    [Exception]; [Timeout] is a subclass of [RequestException], and
    [RequestException] below stands for its instances that are no [Timeout]. *)
Inductive exn_class :=
| Timeout
| RequestException
| AttributeError
| TypeError
| KeyError
| OverflowError
| OtherException (name : string).

(** An exception with [str(e)]. *)
Record exn := Exn { exn_class_of : exn_class; exn_str : string }.

Inductive res (A : Type) :=
| Ok (a : A)
| Raise (e : exn).
Arguments Ok {A} a.
Arguments Raise {A} e.

#[global] Instance res_ret : MRet res := fun A a => Ok a.
#[global] Instance res_bind : MBind res := fun A B f m =>
  match m with
  | Ok a => f a
  | Raise e => Raise e
  end.

(** ** Operations on Python values *)

Fixpoint assoc {A} (k : string) (d : list (string * A)) : option A :=
  match d with
  | [] => None
  | (k', v) :: d' => if String.eqb k k' then Some v else assoc k d'
  end.

(** [job.get(k, default)] *)
Definition py_get (job : pyval) (k : string) (default : pyval) : res pyval :=
  match job with
  | PyDict d => Ok (from_option id default (assoc k d))
  | _ => Raise (Exn AttributeError
                  ("'" ++ type_name job ++ "' object has no attribute 'get'"))
  end.

(** [job[k]] *)
Definition py_getitem (job : pyval) (k : string) : res pyval :=
  match job with
  | PyDict d =>
      match assoc k d with
      | Some v => Ok v
      | None => Raise (Exn KeyError ("'" ++ k ++ "'"))
      end
  | _ => Raise (Exn TypeError
                  ("'" ++ type_name job ++ "' object is not subscriptable"))
  end.

(** The characters of a string, one string each. *)
Fixpoint chars (s : string) : list string :=
  match s with
  | EmptyString => []
  | String c s' => String c EmptyString :: chars s'
  end.

(** [v[:n]]; slicing a [dict] raises [TypeError] (a [KeyError] from Python
    3.12 on, caught by the same clause). *)
Definition py_slice_to (n : nat) (v : pyval) : res pyval :=
  match v with
  | PyList l => Ok (PyList (take n l))
  | PyStr s => Ok (PyStr (String.substring 0 n s))
  | PyDict _ => Raise (Exn TypeError "unhashable type: 'slice'")
  | _ => Raise (Exn TypeError
                  ("'" ++ type_name v ++ "' object is not subscriptable"))
  end.

(** [iter(v)], run to the end. *)
Definition py_iter (v : pyval) : res (list pyval) :=
  match v with
  | PyList l => Ok l
  | PyStr s => Ok (PyStr <$> chars s)
  | PyDict d => Ok ((fun kv => PyStr (fst kv)) <$> d)
  | _ => Raise (Exn TypeError
                  ("'" ++ type_name v ++ "' object is not iterable"))
  end.

(** The strings of a sequence handed to [str.join]; the first item that is
    no [str] raises. *)
Fixpoint join_items (i : nat) (l : list pyval) : res (list string) :=
  match l with
  | [] => Ok []
  | PyStr s :: l' => ss ← join_items (S i) l'; Ok (s :: ss)
  | v :: _ => Raise (Exn TypeError
                       ("sequence item " ++ pretty i ++ ": expected str instance, "
                          ++ type_name v ++ " found"))
  end.

(** [sep.join(v)] *)
Definition py_join (sep : string) (v : pyval) : res pyval :=
  match py_iter v with
  | Ok l => ss ← join_items 0 l; Ok (PyStr (String.concat sep ss))
  | Raise _ => Raise (Exn TypeError "can only join an iterable")
  end.

(** ** The normaliser: [LinkedInJobAPI._parse_jobs] *)

(** The dictionary built for one job; the fields are its keys. *)
Record job_record := JobRecord {
  title : pyval;
  company : pyval;
  location : pyval;
  posted_date : pyval;
  description : pyval;
  apply_url : pyval;
  type : pyval;
  remote : pyval;
  salary : pyval;
  industry : pyval
}.

(** The [location] computed at the head of the [try] body. *)
Definition job_location (job : pyval) : res pyval :=
  derived ← py_get job "locations_derived" PyNone;
  if truthy derived then
    locations ← py_getitem job "locations_derived";
    first2 ← py_slice_to 2 locations;
    py_join ", " first2
  else
    plain ← py_get job "location" PyNone;
    if truthy plain then py_getitem job "location" else Ok (PyStr "N/A").

(** The value under ["type"]. *)
Definition job_type (job : pyval) : res pyval :=
  employment ← py_get job "employment_type" PyNone;
  if truthy employment then
    types ← py_get job "employment_type" (PyList []);
    py_join ", " types
  else Ok (PyStr "N/A").

(** The body of the [try] inside the loop, for one [job]; the arguments of a
    call are evaluated before it, so the inner [get] of a chain comes first. *)
Definition parse_job (job : pyval) : res job_record :=
  location ← job_location job;
  title ← py_get job "title" (PyStr "N/A");
  company ← py_get job "organization" (PyStr "N/A");
  posted_at ← py_get job "posted_at" (PyStr "N/A");
  posted_date ← py_get job "date_posted" posted_at;
  description' ← py_get job "description" (PyStr "No description available");
  description ← py_get job "description_text" description';
  apply_url' ← py_get job "apply_url" (PyStr "#");
  apply_url ← py_get job "url" apply_url';
  type ← job_type job;
  remote' ← py_get job "remote" (PyBool false);
  remote ← py_get job "remote_derived" remote';
  salary ← py_get job "salary_raw" (PyStr "Not specified");
  industry ← py_get job "linkedin_org_industry" (PyStr "N/A");
  Ok (JobRecord title company location posted_date description apply_url
        type remote salary industry).

(** The [for] loop: [jobs] is the list built so far; an item whose body raises
    is skipped ([except Exception: continue]). *)
Fixpoint parse_loop (jobs : list job_record) (job_list : list pyval)
  : list job_record :=
  match job_list with
  | [] => jobs
  | job :: rest =>
      match parse_job job with
      | Ok parsed_job => parse_loop (jobs ++ [parsed_job]) rest
      | Raise _ => parse_loop jobs rest
      end
  end.

(** ["jobs" in data] *)
Definition has_key (k : string) (d : list (string * pyval)) : bool :=
  bool_decide (is_Some (assoc k d)).

Definition _parse_jobs (data : pyval) : res (list job_record) :=
  match data with
  | PyList job_list => Ok (parse_loop [] job_list)
  | PyDict d =>
      if has_key "jobs" d then
        job_list ← py_getitem data "jobs";
        items ← py_iter job_list;
        Ok (parse_loop [] items)
      else Ok []
  | _ => Ok []
  end.

(** ** The client *)

Record LinkedInJobAPI := Client {
  api_key : option string;
  api_host : option string;
  base_url : string
}.

Definition default_url : string :=
  "https://linkedin-job-search-api.p.rapidapi.com/active-jb-7d".

(** [__init__]: [secrets] is [st.secrets]; a missing entry raises inside the
    [try], and both credentials are then reset to [None]. *)
Definition __init__ (secrets : gmap string (gmap string string)) : LinkedInJobAPI :=
  let creds :=
    rapidapi ← secrets !! "rapidapi";
    key ← rapidapi !! "key";
    host ← rapidapi !! "host";
    Some (key, host) in
  match creds with
  | Some (key, host) =>
      Client (Some key) (Some host)
        (if String.eqb host "" then default_url
         else "https://" ++ host ++ "/active-jb-7d")
  | None => Client None None default_url
  end.

(** [not s] for an [Optional[str]] *)
Definition falsy_str (s : option string) : bool :=
  match s with
  | None => true
  | Some s => String.eqb s ""
  end.

Record request := Request {
  url : string;
  headers : gmap string string;
  params : gmap string pyval;
  timeout : Z
}.

Record response := Response {
  status_code : Z;
  text : string;
  json : res pyval          (* what [response.json()] returns or raises *)
}.

(** The world outside the client: the clock, the answer to each request, and
    the requests sent so far. *)
Record world := World {
  now : Z;                  (* [datetime.now()], as a proleptic Gregorian day ordinal *)
  reply : request -> res response;
  calls : list request
}.

(** [requests.get(url, headers=..., params=..., timeout=...)] *)
Definition requests_get (rq : request) (w : world) : res response * world :=
  (reply w rq, World (now w) (reply w) (calls w ++ [rq])).

(** The dictionary [search_sap_jobs] returns; [total = None] when the key is
    absent, [error = None] for Python's [None]. *)
Record result := Result {
  success : bool;
  error : option string;
  jobs : list job_record;
  total : option Z
}.

Definition failure (msg : string) : result := Result false (Some msg) [] None.

(** [timedelta(days=days)] *)
Definition timedelta (days : Z) : res Z :=
  if (Z.abs days <=? 999999999)%Z then Ok days
  else Raise (Exn OverflowError
                ("days=" ++ pretty days ++ "; must have magnitude <= 999999999")).

(** Ordinals of [date.min] and [date.max]. *)
Definition MINORDINAL : Z := 1.
Definition MAXORDINAL : Z := 3652059.

(** [d - delta] on a [datetime] and a whole number of days. *)
Definition datetime_sub (d delta : Z) : res Z :=
  let r := (d - delta)%Z in
  if ((MINORDINAL <=? r) && (r <=? MAXORDINAL))%Z then Ok r
  else Raise (Exn OverflowError "date value out of range").

(** The request parameters of [search_sap_jobs]. *)
Definition build_params (location : option string) (remote : option bool)
    (limit offset : Z) : gmap string pyval :=
  let params : gmap string pyval :=
    <["description_type" := PyStr "text"]>
      (<["offset" := PyInt offset]>
         (<["limit" := PyInt limit]>
            (<["title_filter" := PyStr "SAP"]> ∅))) in
  let params :=
    match location with
    | Some l =>
        if negb (String.eqb l "") && negb (String.eqb l "All Locations")
        then <["location_filter" := PyStr l]> params else params
    | None => params
    end in
  match remote with
  | Some true => <["remote" := PyStr "true"]> params
  | _ => params
  end.

(** The [len(data) if isinstance(data, list) else 0] of the success branch. *)
Definition raw_total (data : pyval) : Z :=
  match data with
  | PyList l => Z.of_nat (List.length l)
  | _ => 0
  end.

(** The two authentication headers. *)
Definition build_headers (self : LinkedInJobAPI) : gmap string string :=
  <["X-RapidAPI-Host" := default "" (api_host self)]>
    (<["X-RapidAPI-Key" := default "" (api_key self)]> ∅).

Definition build_request (self : LinkedInJobAPI) (location : option string)
    (remote : option bool) (limit offset : Z) : request :=
  Request (base_url self) (build_headers self)
    (build_params location remote limit offset) 30.

(** The body of the outer [try]. *)
Definition send (rq : request) (w : world) : res result * world :=
  let '(r, w') := requests_get rq w in
  (response ← r;
   if (status_code response =? 200)%Z then
     data ← json response;
     parsed ← _parse_jobs data;
     Ok (Result true None parsed (Some (raw_total data)))
   else if (status_code response =? 429)%Z then
     Ok (failure "Rate limit exceeded. Please wait a moment and try again.")
   else
     Ok (failure ("API error: " ++ pretty (status_code response) ++ " - "
                    ++ text response)),
   w').

(** The three [except] clauses, in order. *)
Definition handler (e : exn) : result :=
  match exn_class_of e with
  | Timeout => failure "Request timed out. Please try again."
  | RequestException => failure ("Network error: " ++ exn_str e)
  | _ => failure ("Unexpected error: " ++ exn_str e)
  end.

(** [posted_after], before its formatting by [strftime], which neither
    raises nor is read again. *)
Definition posted_after (w : world) (days_back : Z) : res Z :=
  delta ← timedelta days_back; datetime_sub (now w) delta.

Definition search_sap_jobs (self : LinkedInJobAPI) (days_back : Z)
    (location : option string) (remote : option bool) (limit offset : Z)
    (include_text : bool) (w : world) : res result * world :=
  if falsy_str (api_key self) || falsy_str (api_host self) then
    (Ok (failure "API credentials not configured"), w)
  else
    match posted_after w days_back with
    | Raise e => (Raise e, w)
    | Ok _ =>
        match send (build_request self location remote limit offset) w with
        | (Ok r, w') => (Ok r, w')
        | (Raise e, w') => (Ok (handler e), w')
        end
    end.

(** ** The page: [src/app.py] *)

(** A double quote. *)
Definition dq : string := String (ascii_of_nat 34) EmptyString.

(** [class="c"] *)
Definition class_attr (c : string) : string := "class=" ++ dq ++ c ++ dq.

(** [v != s] for a string [s] *)
Definition py_ne_str (v : pyval) (s : string) : bool :=
  match v with
  | PyStr s' => negb (String.eqb s' s)
  | _ => true
  end.

(** [a // b] *)
Definition floordiv (a b : Z) : res Z :=
  if (b =? 0)%Z then
    Raise (Exn (OtherException "ZeroDivisionError")
             "integer division or modulo by zero")
  else Ok (a / b)%Z.

(** What [display_job_card] puts on the page: the markup of the card, the
    description written into the expander, and the target of the "Apply Now"
    button when there is one. *)
Record card := Card {
  card_html : string;
  card_description : pyval;
  card_apply : option pyval
}.


(** The values of the sidebar widgets in a run of the script. *)
Record sidebar := Sidebar {
  selected_location : string;
  remote_only : bool;
  selected_days_back : Z;
  results_per_page : Z
}.

(** The button whose click started the run, if any. *)
Inductive button :=
| NoButton
| SearchJobs
| PreviousPage
| NextPage.

#[global] Instance button_eq_dec : EqDecision button.
Proof. solve_decision. Defined.

(** [st.session_state], after its two keys were initialised. *)
Record session_state := Session {
  page_offset : Z;
  search_results : option result
}.

Definition fresh_session : session_state := Session 0 None.

(** What a run shows below the header: the instructions, an error, the
    warning that nothing was found, or a page of jobs with its summary, its
    cards, the page label and the two buttons that may be offered; or nothing
    of it, when [st.rerun()] stops the run. *)
Inductive page :=
| Instructions
| ErrorMessage (msg : string)
| NoJobsWarning
| JobsPage (summary : string) (cards : list card) (previous_offered : bool)
    (page_label : string) (next_offered : bool)
| Rerun.

Section Page.

(** [str(v)], as an f-string applies it to a field of a job. *)
Variable py_str : pyval -> string.

Definition remote_badge (job : job_record) : string :=
  if truthy (remote job) then "<span class='badge badge-remote'>🌐 Remote</span>"
  else "".

Definition display_job_card (job : job_record) (index : nat) : card :=
  let job_card_html :=
    "<div " ++ class_attr "job-card" ++ ">"
    ++ "<div " ++ class_attr "job-title" ++ ">" ++ py_str (title job) ++ "</div>"
    ++ "<div " ++ class_attr "job-company" ++ ">🏢 " ++ py_str (company job)
    ++ "</div>"
    ++ "<div " ++ class_attr "job-meta" ++ ">"
    ++ "<span " ++ class_attr "badge badge-location" ++ ">📍 "
    ++ py_str (location job) ++ "</span>"
    ++ remote_badge job
    ++ "<span " ++ class_attr "badge badge-type" ++ ">⏰ "
    ++ py_str (posted_date job) ++ "</span>"
    ++ "</div>"
    ++ "</div>" in
  Card job_card_html (description job)
    (if truthy (apply_url job) && py_ne_str (apply_url job) "#"
     then Some (apply_url job) else None).

(** The part of [main] below the sidebar, for one run of the script: the
    page shown, the session state and the world after it. *)
Definition main (secrets : gmap string (gmap string string)) (sb : sidebar)
    (clicked : button) (st : session_state) (w : world)
  : res page * session_state * world :=
  let api_client := __init__ secrets in
  if bool_decide (clicked = SearchJobs)
     || bool_decide (is_Some (search_results st)) then
    let location_param :=
      if String.eqb (selected_location sb) "All Locations" then None
      else Some (selected_location sb) in
    let remote_param := if remote_only sb then Some true else None in
    match search_sap_jobs api_client (selected_days_back sb) location_param
            remote_param (results_per_page sb) (page_offset st) true w with
    | (Raise e, w') => (Raise e, st, w')
    | (Ok results, w') =>
        let st' := Session (page_offset st) (Some results) in
        if success results then
          match jobs results with
          | [] => (Ok NoJobsWarning, st', w')
          | _ :: _ =>
              match total results with
              | None => (Raise (Exn KeyError "'total'"), st', w')
              | Some found =>
                  let summary := "✅ Found " ++ pretty found ++ " SAP jobs!" in
                  let cards :=
                    imap (fun idx job => display_job_card job idx)
                      (jobs results) in
                  if (page_offset st >? 0)%Z
                     && bool_decide (clicked = PreviousPage) then
                    (Ok Rerun,
                     Session (page_offset st - results_per_page sb)
                       (Some results), w')
                  else
                    match floordiv (page_offset st) (results_per_page sb) with
                    | Raise e => (Raise e, st', w')
                    | Ok number =>
                        let page_label :=
                          "<div style='text-align: center; padding: 0.5rem;'>Page "
                          ++ pretty (number + 1)%Z ++ "</div>" in
                        let full :=
                          (Z.of_nat (List.length (jobs results))
                           =? results_per_page sb)%Z in
                        if full && bool_decide (clicked = NextPage) then
                          (Ok Rerun,
                           Session (page_offset st + results_per_page sb)
                             (Some results), w')
                        else
                          (Ok (JobsPage summary cards (page_offset st >? 0)%Z
                                 page_label full), st', w')
                    end
              end
          end
        else
          (Ok (ErrorMessage
                 ("❌ Error: " ++ from_option id "None" (error results))),
           st', w')
    end
  else (Ok Instructions, st, w).

(** A run and, when it ends in [st.rerun()], the run that follows at once,
    in which no button is clicked. *)
Definition run (secrets : gmap string (gmap string string)) (sb : sidebar)
    (clicked : button) (st : session_state) (w : world)
  : res page * session_state * world :=
  match main secrets sb clicked st w with
  | (Ok Rerun, st', w') => main secrets sb NoButton st' w'
  | outcome => outcome
  end.

(** The session and the world after a sequence of interactions. *)
Fixpoint interact (secrets : gmap string (gmap string string))
    (inputs : list (sidebar * button)) (st : session_state) (w : world)
  : session_state * world :=
  match inputs with
  | [] => (st, w)
  | (sb, clicked) :: rest =>
      let '(_, st', w') := run secrets sb clicked st w in
      interact secrets rest st' w'
  end.

End Page.

(** ** Specifications *)

(** The record of an item whose extraction does not raise. *)
Definition parsed (job : pyval) : option job_record :=
  match parse_job job with
  | Ok r => Some r
  | Raise _ => None
  end.

(** The records of the well-formed items of a raw list, in its order. *)
Definition well_formed_records (job_list : list pyval) : list job_record :=
  omap parsed job_list.

(** Every field is a string, except [remote], a boolean. *)
Definition record_typed (r : job_record) : bool :=
  is_str (title r) && is_str (company r) && is_str (location r)
  && is_str (posted_date r) && is_str (description r) && is_str (apply_url r)
  && is_str (type r) && is_bool (remote r) && is_str (salary r)
  && is_str (industry r).

Definition absent_or (p : pyval -> bool) (k : string) (d : list (string * pyval))
  : bool :=
  match assoc k d with
  | Some v => p v
  | None => true
  end.

Definition is_str_list (v : pyval) : bool :=
  match v with
  | PyList l => forallb is_str l
  | _ => false
  end.

(** The fields a payload has carry the JSON types the API documents: strings,
    lists of strings for the two list fields, booleans for the remote flags. *)
Definition payload_typed (d : list (string * pyval)) : bool :=
  absent_or is_str_list "locations_derived" d
  && absent_or is_str "location" d
  && absent_or is_str "title" d
  && absent_or is_str "organization" d
  && absent_or is_str "posted_at" d
  && absent_or is_str "date_posted" d
  && absent_or is_str "description" d
  && absent_or is_str "description_text" d
  && absent_or is_str "apply_url" d
  && absent_or is_str "url" d
  && absent_or is_str_list "employment_type" d
  && absent_or is_bool "remote" d
  && absent_or is_bool "remote_derived" d
  && absent_or is_str "salary_raw" d
  && absent_or is_str "linkedin_org_industry" d.

(** The two top-level shapes of the specification: a bare array, or an object
    with an array under ["jobs"]. *)
Definition accepted_shape (data : pyval) : bool :=
  match data with
  | PyList _ => true
  | PyDict d => match assoc "jobs" d with Some (PyList _) => true | _ => false end
  | _ => false
  end.

(** The raw list of the specification's two shapes. *)
Definition raw_job_list (data : pyval) : option (list pyval) :=
  match data with
  | PyList l => Some l
  | PyDict d => match assoc "jobs" d with Some (PyList l) => Some l | _ => None end
  | _ => None
  end.

(** [isinstance(data, dict) and "jobs" in data] *)
Definition has_jobs_key (data : pyval) : bool :=
  match data with
  | PyDict d => has_key "jobs" d
  | _ => false
  end.

(** The value a chain of [get]s ends in. *)
Definition field (k : string) (default : pyval) (d : list (string * pyval)) : pyval :=
  from_option id default (assoc k d).

(** Both credentials are present and non-empty. *)
Definition configured (self : LinkedInJobAPI) : Prop :=
  falsy_str (api_key self) = false /\ falsy_str (api_host self) = false.

(** [daysBack] is within the range of the search criteria. *)
Definition days_in_range (days_back : Z) : Prop := (1 <= days_back <= 30)%Z.

(** The clock shows a date from 0001-01-31 on. *)
Definition clock_in_range (w : world) : Prop := (31 <= now w <= MAXORDINAL)%Z.

(** The result is one of the two tagged outcomes. *)
Definition is_success (r : result) : Prop :=
  success r = true /\ error r = None /\ exists n, total r = Some n.

Definition is_failure (r : result) : Prop :=
  success r = false /\ (exists msg, error r = Some msg) /\ total r = None.

(** [isinstance(v, dict)] *)
Definition is_dict (v : pyval) : bool :=
  match v with PyDict _ => true | _ => false end.

(** The values under ["locations_derived"] the location can be computed
    from: a false value (the plain location is used then), a string, or a
    list whose first two entries are strings. *)
Definition location_ok (derived : pyval) : bool :=
  negb (truthy derived)
  || match derived with
     | PyStr _ => true
     | PyList l => forallb is_str (take 2 l)
     | _ => false
     end.

(** The values under ["employment_type"] the type can be computed from: a
    false value, a string, an object (its keys are joined), or a list of
    strings. *)
Definition type_ok (employment : pyval) : bool :=
  negb (truthy employment)
  || match employment with
     | PyStr _ | PyDict _ => true
     | PyList l => forallb is_str l
     | _ => false
     end.

(** The keys [search_sap_jobs] ever puts into the request parameters. *)
Definition param_keys : list string :=
  ["title_filter"; "limit"; "offset"; "description_type"; "location_filter";
   "remote"].

(** [st.secrets["rapidapi"][name]], if both lookups succeed. *)
Definition secret (secrets : gmap string (gmap string string)) (name : string)
  : option string :=
  rapidapi ← secrets !! "rapidapi"; rapidapi !! name.

(** The offset is the start of a page: a whole, non-negative number of pages
    of the given size. *)
Definition page_start (size offset : Z) : Prop :=
  (0 <= offset)%Z /\ (size | offset)%Z.


(** *** Sample inputs *)

Definition sample_client : LinkedInJobAPI :=
  Client (Some "secret") (Some "jobs.example.com")
    "https://jobs.example.com/active-jb-7d".

(** A world whose server answers every request with [resp]; the clock shows
    2026-11-04. *)
Definition sample_world (resp : res response) : world :=
  World 739924 (fun _ => resp) [].

Definition answers (data : pyval) : res response :=
  Ok (Response 200 "" (Ok data)).

Definition acme_job : pyval :=
  PyDict [("title", PyStr "SAP Consultant"); ("organization", PyStr "Acme");
          ("locations_derived", PyList [PyStr "Berlin"; PyStr "Remote"]);
          ("remote_derived", PyBool true)].

Definition acme_record : job_record :=
  JobRecord (PyStr "SAP Consultant") (PyStr "Acme") (PyStr "Berlin, Remote")
    (PyStr "N/A") (PyStr "No description available") (PyStr "#") (PyStr "N/A")
    (PyBool true) (PyStr "Not specified") (PyStr "N/A").

(** The record of a job object without any of the fields read. *)
Definition fallback_record : job_record :=
  JobRecord (PyStr "N/A") (PyStr "N/A") (PyStr "N/A") (PyStr "N/A")
    (PyStr "No description available") (PyStr "#") (PyStr "N/A")
    (PyBool false) (PyStr "Not specified") (PyStr "N/A").

Definition sample_secrets : gmap string (gmap string string) :=
  {[ "rapidapi" := {[ "key" := "secret"; "host" := "jobs.example.com" ]} ]}.

(** Secrets with the key but without the host. *)
Definition partial_secrets : gmap string (gmap string string) :=
  {[ "rapidapi" := {[ "key" := "secret" ]} ]}.

(** [str] on the values the sample records hold. *)
Definition sample_str (v : pyval) : string :=
  match v with
  | PyStr s => s
  | PyInt n => pretty n
  | PyBool true => "True"
  | PyBool false => "False"
  | _ => "None"
  end.

(** Pune, remote only, the last week, ten results a page. *)
Definition sample_sidebar : sidebar := Sidebar "Pune" true 7 10.

(** A batch with a well-formed job, a string where an object is expected, and
    a job without any field. *)
Definition mixed_batch : list pyval := [acme_job; PyStr "oops"; PyDict []].

(** The one-job payload in the object shape. *)
Definition wrapped_payload : pyval := PyDict [("jobs", PyList [acme_job])].

(** A world whose server cannot be reached. *)
Definition unreachable : exn := Exn (OtherException "OSError") "no route to host".

(** Closes the side conditions of the theorems at the sample inputs. *)
Ltac side_condition :=
  first [ reflexivity
        | split; reflexivity
        | unfold days_in_range, clock_in_range, MAXORDINAL; simpl; lia ].

(** ** Properties of the normaliser *)

Lemma parse_loop_app (job_list : list pyval) :
  forall jobs, parse_loop jobs job_list = (jobs ++ well_formed_records job_list)%list.
Proof.
  induction job_list as [|job rest IH]; intros acc; simpl.
  - by rewrite app_nil_r.
  - unfold parsed. destruct (parse_job job) as [r|e]; rewrite IH; simpl.
    + by rewrite <- app_assoc.
    + done.
Qed.

Lemma parse_jobs_list (items : list pyval) :
  _parse_jobs (PyList items) = Ok (well_formed_records items).
Proof. simpl. by rewrite parse_loop_app. Qed.

Lemma has_key_assoc (k : string) (d : list (string * pyval)) :
  has_key k d = match assoc k d with Some _ => true | None => false end.
Proof.
  unfold has_key. destruct (assoc k d) as [v|].
  - apply bool_decide_eq_true. eauto.
  - apply bool_decide_eq_false. intros [v Hv]. discriminate.
Qed.

Lemma parse_jobs_dict (d : list (string * pyval)) (items : list pyval) :
  assoc "jobs" d = Some (PyList items) ->
  _parse_jobs (PyDict d) = Ok (well_formed_records items).
Proof.
  intros H. unfold _parse_jobs, py_getitem. rewrite has_key_assoc, H. simpl.
  by rewrite parse_loop_app.
Qed.

(** C9: the raw list holding the one "SAP Consultant" job of Acme normalises
    to exactly one record, with location "Berlin, Remote", company "Acme",
    remote true and salary "Not specified". *)
Theorem parse_jobs_acme :
  _parse_jobs (PyList [acme_job]) = Ok [acme_record]
  /\ location acme_record = PyStr "Berlin, Remote"
  /\ company acme_record = PyStr "Acme"
  /\ remote acme_record = PyBool true
  /\ salary acme_record = PyStr "Not specified".
Proof. repeat split; reflexivity. Qed.

Lemma raw_job_list_parse (data : pyval) (items : list pyval) :
  raw_job_list data = Some items ->
  _parse_jobs data = Ok (well_formed_records items).
Proof.
  destruct data as [| | | | |l|d]; unfold raw_job_list; try discriminate.
  - intros [= ->]. apply parse_jobs_list.
  - destruct (assoc "jobs" d) as [[| | | | |l|]|] eqn:E; try discriminate.
    intros [= ->]. by apply parse_jobs_dict.
Qed.

(** An object whose ["jobs"] is [null] is none of the two shapes, and the
    normaliser raises on it instead of returning the empty list. *)
Lemma parse_jobs_null_jobs_raises :
  accepted_shape (PyDict [("jobs", PyNone)]) = false
  /\ _parse_jobs (PyDict [("jobs", PyNone)])
     = Raise (Exn TypeError "'NoneType' object is not iterable")
  /\ _parse_jobs (PyDict [("jobs", PyNone)]) <> Ok [].
Proof. split; [reflexivity | split; [reflexivity | discriminate]]. Qed.

(** C6, amended: a bare array, or the array under ["jobs"] of an object, is
    normalised item by item; every top-level value that is neither an array
    nor an object with a ["jobs"] key gives the empty list, not an error. *)
Theorem parse_jobs_shapes (data : pyval) :
  (forall items, raw_job_list data = Some items ->
                 _parse_jobs data = Ok (well_formed_records items))
  /\ (is_list data = false -> has_jobs_key data = false ->
      _parse_jobs data = Ok []).
Proof.
  split; [apply raw_job_list_parse |].
  destruct data; simpl; try done.
  intros _ ->. done.
Qed.

Lemma parse_jobs_shapes_witness :
  _parse_jobs (PyDict [("jobs", PyList [acme_job])])
  = Ok (well_formed_records [acme_job])
  /\ _parse_jobs (PyStr "Service Unavailable") = Ok [].
Proof.
  split.
  - apply (proj1 (parse_jobs_shapes (PyDict [("jobs", PyList [acme_job])]))).
    reflexivity.
  - apply (proj2 (parse_jobs_shapes (PyStr "Service Unavailable")));
      reflexivity.
Defined.

Lemma well_formed_records_delete (items : list pyval) :
  forall (i : nat) (bad : pyval) (e : exn),
    items !! i = Some bad -> parse_job bad = Raise e ->
    well_formed_records (delete i items) = well_formed_records items.
Proof.
  unfold well_formed_records.
  induction items as [|x items IH]; intros [|i] bad e Hi Hbad; simpl in *;
    try discriminate.
  - injection Hi as ->. unfold parsed at 2. by rewrite Hbad.
  - destruct (parsed x); [f_equal |]; exact (IH i bad e Hi Hbad).
Qed.

(** ** Properties of the search *)

Lemma posted_after_in_range (w : world) (days_back : Z) :
  days_in_range days_back -> clock_in_range w ->
  posted_after w days_back = Ok (now w - days_back)%Z.
Proof.
  unfold days_in_range, clock_in_range, posted_after, timedelta, datetime_sub,
    MINORDINAL, MAXORDINAL.
  intros Hd Hw.
  destruct (Z.leb_spec (Z.abs days_back) 999999999); [|lia]. simpl.
  destruct (Z.leb_spec 1 (now w - days_back)); [|lia].
  destruct (Z.leb_spec (now w - days_back) 3652059); [|lia].
  reflexivity.
Qed.

Lemma configured_not_falsy (self : LinkedInJobAPI) :
  configured self ->
  falsy_str (api_key self) || falsy_str (api_host self) = false.
Proof. by intros [-> ->]. Qed.

(** What the search returns when the server answers 200 with a JSON body. *)
Lemma search_ok_200 self days_back location remote limit offset include_text
    (w : world) (resp : response) (data : pyval) :
  configured self -> days_in_range days_back -> clock_in_range w ->
  reply w (build_request self location remote limit offset) = Ok resp ->
  status_code resp = 200%Z -> json resp = Ok data ->
  fst (search_sap_jobs self days_back location remote limit offset include_text w)
  = match _parse_jobs data with
    | Ok parsed => Ok (Result true None parsed (Some (raw_total data)))
    | Raise e => Ok (handler e)
    end.
Proof.
  intros Hc Hd Hw Hr Hs Hj. unfold search_sap_jobs.
  rewrite (configured_not_falsy _ Hc), (posted_after_in_range _ _ Hd Hw).
  unfold send, requests_get. rewrite Hr. simpl. rewrite Hs, Hj. simpl.
  by destruct (_parse_jobs data).
Qed.

(** C5: an item whose extraction raises is skipped and the batch goes on: the
    normaliser returns the records of the well-formed items of the raw list,
    in order, the same as for the list without the failing item, and the
    search returns a success with them. *)
Theorem parse_jobs_skips_failing_items
    self days_back location remote limit offset include_text
    (w : world) (resp : response) (data : pyval) (items : list pyval) :
  configured self -> days_in_range days_back -> clock_in_range w ->
  reply w (build_request self location remote limit offset) = Ok resp ->
  status_code resp = 200%Z -> json resp = Ok data ->
  raw_job_list data = Some items ->
  _parse_jobs data = Ok (well_formed_records items)
  /\ (forall i bad e, items !! i = Some bad -> parse_job bad = Raise e ->
        _parse_jobs (PyList (delete i items)) = _parse_jobs data)
  /\ exists r,
      fst (search_sap_jobs self days_back location remote limit offset
             include_text w) = Ok r
      /\ success r = true /\ error r = None
      /\ jobs r = well_formed_records items.
Proof.
  intros Hc Hd Hw Hr Hs Hj Hl.
  pose proof (raw_job_list_parse _ _ Hl) as Hp.
  split; [done | split].
  - intros i bad e Hi Hbad.
    by rewrite Hp, parse_jobs_list, (well_formed_records_delete _ i bad e).
  - rewrite (search_ok_200 _ _ _ _ _ _ _ _ _ _ Hc Hd Hw Hr Hs Hj), Hp.
    eexists. split; [reflexivity | done].
Qed.

Lemma parse_jobs_skips_failing_items_witness :
  _parse_jobs (PyList mixed_batch) = Ok (well_formed_records mixed_batch)
  /\ (forall i bad e, mixed_batch !! i = Some bad -> parse_job bad = Raise e ->
        _parse_jobs (PyList (delete i mixed_batch))
        = _parse_jobs (PyList mixed_batch))
  /\ exists r,
      fst (search_sap_jobs sample_client 7 None None 100 0 true
             (sample_world (answers (PyList mixed_batch)))) = Ok r
      /\ success r = true /\ error r = None
      /\ jobs r = well_formed_records mixed_batch.
Proof.
  apply (parse_jobs_skips_failing_items sample_client 7 None None 100 0 true
           (sample_world (answers (PyList mixed_batch)))
           (Response 200 "" (Ok (PyList mixed_batch)))
           (PyList mixed_batch) mixed_batch); side_condition.
Defined.

Example mixed_batch_records :
  well_formed_records mixed_batch = [acme_record; fallback_record].
Proof. reflexivity. Qed.

(** For a bare array the total is the length of the raw list. *)
Lemma total_of_bare_array self days_back location remote limit offset
    include_text (w : world) (resp : response) (items : list pyval) :
  configured self -> days_in_range days_back -> clock_in_range w ->
  reply w (build_request self location remote limit offset) = Ok resp ->
  status_code resp = 200%Z -> json resp = Ok (PyList items) ->
  exists r,
    fst (search_sap_jobs self days_back location remote limit offset
           include_text w) = Ok r
    /\ total r = Some (Z.of_nat (List.length items)).
Proof.
  intros Hc Hd Hw Hr Hs Hj.
  rewrite (search_ok_200 _ _ _ _ _ _ _ _ _ _ Hc Hd Hw Hr Hs Hj), parse_jobs_list.
  eexists. split; reflexivity.
Qed.

(** C1, at the failing input: the payload is an object whose ["jobs"] array
    holds one job; the search succeeds with that job's record, and a total
    of 0 where the raw list has length 1. *)
Theorem total_of_jobs_object_is_zero :
  raw_job_list wrapped_payload = Some [acme_job]
  /\ fst (search_sap_jobs sample_client 7 None None 100 0 true
            (sample_world (answers wrapped_payload)))
     = Ok (Result true None [acme_record] (Some 0%Z)).
Proof. split; reflexivity. Qed.

(** C4: when the key or the host is absent or empty, the search returns the
    failure "API credentials not configured" and leaves the world as it was:
    no request is sent. *)
Theorem search_without_credentials
    self days_back location remote limit offset include_text (w : world) :
  api_key self = None \/ api_key self = Some ""
  \/ api_host self = None \/ api_host self = Some "" ->
  search_sap_jobs self days_back location remote limit offset include_text w
  = (Ok (failure "API credentials not configured"), w)
  /\ calls (snd (search_sap_jobs self days_back location remote limit offset
                   include_text w)) = calls w.
Proof.
  intros H. unfold search_sap_jobs.
  assert (falsy_str (api_key self) || falsy_str (api_host self) = true) as ->.
  { destruct H as [-> | [-> | [-> | ->]]]; simpl; try done;
      by rewrite orb_true_r. }
  done.
Qed.

Lemma search_without_credentials_witness :
  search_sap_jobs (Client (Some "secret") (Some "") default_url) 7 None None
    100 0 true (sample_world (answers wrapped_payload))
  = (Ok (failure "API credentials not configured"),
     sample_world (answers wrapped_payload))
  /\ calls (snd (search_sap_jobs (Client (Some "secret") (Some "") default_url)
                   7 None None 100 0 true
                   (sample_world (answers wrapped_payload))))
     = calls (sample_world (answers wrapped_payload)).
Proof.
  apply (search_without_credentials
           (Client (Some "secret") (Some "") default_url)).
  right. right. right. reflexivity.
Defined.

Lemma failure_is_failure (msg : string) : is_failure (failure msg).
Proof. unfold is_failure. simpl. eauto. Qed.

Lemma handler_is_failure (e : exn) : is_failure (handler e).
Proof.
  unfold handler. destruct (exn_class_of e); apply failure_is_failure.
Qed.

Lemma send_tagged (rq : request) (w : world) (r : result) :
  fst (send rq w) = Ok r -> is_success r \/ is_failure r.
Proof.
  unfold send, requests_get. simpl.
  destruct (reply w rq) as [resp|e]; simpl; [|discriminate].
  destruct (status_code resp =? 200)%Z.
  - destruct (json resp) as [data|e]; simpl; [|discriminate].
    destruct (_parse_jobs data) as [parsed|e]; simpl; [|discriminate].
    intros [= <-]. left. unfold is_success. simpl. eauto.
  - destruct (status_code resp =? 429)%Z; intros [= <-]; right;
      apply failure_is_failure.
Qed.

(** The search either stops on the cutoff computation or returns what the
    [try] statement yields. *)
Lemma search_configured self days_back location remote limit offset
    include_text (w : world) :
  configured self -> days_in_range days_back -> clock_in_range w ->
  fst (search_sap_jobs self days_back location remote limit offset include_text w)
  = match fst (send (build_request self location remote limit offset) w) with
    | Ok r => Ok r
    | Raise e => Ok (handler e)
    end.
Proof.
  intros Hc Hd Hw. unfold search_sap_jobs.
  rewrite (configured_not_falsy _ Hc), (posted_after_in_range _ _ Hd Hw).
  by destruct (send _ w) as [[r|e] w'].
Qed.

(** C3: whatever the HTTP request does (an answer with any status, a timeout,
    another transport error, any other exception, also from decoding or
    normalising the body), the search returns a result tagged success or
    failure and raises nothing; an exception that is neither a timeout nor a
    request exception gives the failure "Unexpected error: " followed by its
    text. *)
Theorem search_never_raises
    self days_back location remote limit offset include_text (w : world) :
  days_in_range days_back -> clock_in_range w ->
  exists r,
    fst (search_sap_jobs self days_back location remote limit offset
           include_text w) = Ok r
    /\ (is_success r \/ is_failure r)
    /\ (forall e,
          configured self ->
          fst (send (build_request self location remote limit offset) w)
          = Raise e ->
          exn_class_of e <> Timeout -> exn_class_of e <> RequestException ->
          r = failure ("Unexpected error: " ++ exn_str e)).
Proof.
  intros Hd Hw.
  destruct (falsy_str (api_key self) || falsy_str (api_host self)) eqn:Hcred.
  - exists (failure "API credentials not configured").
    unfold search_sap_jobs. rewrite Hcred. simpl.
    split; [done | split; [right; apply failure_is_failure |]].
    intros e [Hk Hh]. by rewrite Hk, Hh in Hcred.
  - assert (configured self) as Hc.
    { apply orb_false_elim in Hcred. exact Hcred. }
    rewrite (search_configured _ _ _ _ _ _ _ _ Hc Hd Hw).
    destruct (fst (send _ w)) as [r|e] eqn:Hsend.
    + exists r. split; [done | split; [by eapply send_tagged |]].
      intros e _ [=].
    + exists (handler e).
      split; [done | split; [right; apply handler_is_failure |]].
      intros e' _ [= <-] Ht Hr. unfold handler.
      by destruct (exn_class_of e).
Qed.

Lemma search_never_raises_witness :
  exists r,
    fst (search_sap_jobs sample_client 7 None None 100 0 true
           (sample_world (Raise unreachable))) = Ok r
    /\ (is_success r \/ is_failure r)
    /\ r = failure "Unexpected error: no route to host".
Proof.
  destruct (search_never_raises sample_client 7 None None 100 0 true
              (sample_world (Raise unreachable)))
    as (r & Hr & Htag & Hunexpected); [side_condition | side_condition |].
  exists r. split; [exact Hr | split; [exact Htag |]].
  apply (Hunexpected unreachable);
    [side_condition | reflexivity | discriminate | discriminate].
Defined.

Example search_unreachable :
  fst (search_sap_jobs sample_client 7 None None 100 0 true
         (sample_world (Raise unreachable)))
  = Ok (failure "Unexpected error: no route to host").
Proof. reflexivity. Qed.

(** Outside the range of the criteria the cutoff computation, which precedes
    the [try], can raise. *)
Example search_cutoff_overflow :
  fst (search_sap_jobs sample_client 4000000 None None 100 0 true
         (sample_world (answers (PyList []))))
  = Raise (Exn OverflowError "date value out of range").
Proof. reflexivity. Qed.

(** C10: a result that is not a success carries an empty list of jobs. *)
Theorem failure_has_no_jobs
    self days_back location remote limit offset include_text (w : world)
    (r : result) :
  fst (search_sap_jobs self days_back location remote limit offset
         include_text w) = Ok r ->
  success r = false -> jobs r = [].
Proof.
  unfold search_sap_jobs.
  destruct (falsy_str (api_key self) || falsy_str (api_host self)).
  { simpl. by intros [= <-]. }
  destruct (posted_after w days_back) as [cutoff|e]; [|discriminate].
  unfold send, requests_get.
  destruct (reply w _) as [resp|e]; simpl.
  - destruct (status_code resp =? 200)%Z.
    + destruct (json resp) as [data|e]; simpl.
      * destruct (_parse_jobs data) as [parsed|e]; simpl.
        -- intros [= <-]. discriminate.
        -- intros [= <-] _. unfold handler. by destruct (exn_class_of e).
      * intros [= <-] _. unfold handler. by destruct (exn_class_of e).
    + by destruct (status_code resp =? 429)%Z; intros [= <-].
  - intros [= <-] _. unfold handler. by destruct (exn_class_of e).
Qed.

Lemma failure_has_no_jobs_witness :
  jobs (failure "API error: 503 - Service Unavailable") = [].
Proof.
  apply (failure_has_no_jobs sample_client 7 None None 100 0 true
           (sample_world (Ok (Response 503 "Service Unavailable"
                                (Ok (PyList [acme_job]))))));
    side_condition.
Defined.

(** ** The request parameters *)

(** C7: the parameters hold a ["remote"] entry exactly when [remote] is
    [True]; for [False] and [None] none is added. *)
Theorem remote_param_iff (location : option string) (remote : option bool)
    (limit offset : Z) :
  (is_Some (build_params location remote limit offset !! "remote")
   <-> remote = Some true)
  /\ (remote = Some true ->
      build_params location remote limit offset !! "remote"
      = Some (PyStr "true")).
Proof.
  unfold build_params.
  destruct location as [l|];
    [destruct (negb (String.eqb l "") && negb (String.eqb l "All Locations"))|];
    destruct remote as [[|]|]; simplify_map_eq;
    (split; [split; [try done; by intros [? [=]] | try done] | try done]).
Qed.

Lemma remote_param_iff_witness :
  (is_Some (build_params (Some "Berlin") (Some true) 25 50 !! "remote")
   <-> Some true = Some true)
  /\ (Some true = Some true ->
      build_params (Some "Berlin") (Some true) 25 50 !! "remote"
      = Some (PyStr "true")).
Proof. apply (remote_param_iff (Some "Berlin") (Some true) 25 50). Defined.

Lemma build_params_location (location : option string) (remote : option bool)
    (limit offset : Z) :
  build_params location remote limit offset !! "location_filter"
  = match location with
    | Some l =>
        if negb (String.eqb l "") && negb (String.eqb l "All Locations")
        then Some (PyStr l) else None
    | None => None
    end.
Proof.
  unfold build_params.
  destruct location as [l|];
    [destruct (negb (String.eqb l "") && negb (String.eqb l "All Locations"))|];
    destruct remote as [[|]|]; by simplify_map_eq.
Qed.

(** C8: the parameters hold a ["location_filter"] entry exactly when
    [location] is given, is not empty and is not "All Locations"; the entry
    is then the location itself. *)
Theorem location_param_iff (location : option string) (remote : option bool)
    (limit offset : Z) :
  (is_Some (build_params location remote limit offset !! "location_filter")
   <-> exists l, location = Some l /\ l <> "" /\ l <> "All Locations")
  /\ (forall l, location = Some l -> l <> "" -> l <> "All Locations" ->
        build_params location remote limit offset !! "location_filter"
        = Some (PyStr l)).
Proof.
  rewrite build_params_location.
  destruct location as [l|].
  - destruct (String.eqb_spec l "") as [He|He];
      destruct (String.eqb_spec l "All Locations") as [Ha|Ha]; simpl.
    + split; [split; [by intros [? [=]] | by intros (? & [= <-] & ? & ?)] |].
      by intros ? [= <-].
    + split; [split; [by intros [? [=]] | by intros (? & [= <-] & ? & ?)] |].
      by intros ? [= <-].
    + split; [split; [by intros [? [=]] | by intros (? & [= <-] & ? & ?)] |].
      by intros ? [= <-].
    + split; [split; [intros _; by exists l | by eauto] |].
      by intros ? [= <-].
  - split; [split; [by intros [? [=]] | by intros (? & [=] & _)] |].
    by intros ? [=].
Qed.

Lemma location_param_iff_witness :
  build_params (Some "Berlin") None 25 0 !! "location_filter"
  = Some (PyStr "Berlin").
Proof.
  apply (proj2 (location_param_iff (Some "Berlin") None 25 0) "Berlin");
    [reflexivity | discriminate | discriminate].
Defined.

Example sentinel_adds_no_location :
  build_params (Some "All Locations") None 25 0 !! "location_filter" = None.
Proof. by rewrite build_params_location. Qed.

(** The request the search sends carries exactly these parameters. *)
Lemma search_sends_request self days_back location remote limit offset
    include_text (w : world) :
  configured self -> days_in_range days_back -> clock_in_range w ->
  calls (snd (search_sap_jobs self days_back location remote limit offset
                include_text w))
  = (calls w ++ [build_request self location remote limit offset])%list.
Proof.
  intros Hc Hd Hw. unfold search_sap_jobs.
  rewrite (configured_not_falsy _ Hc), (posted_after_in_range _ _ Hd Hw).
  unfold send, requests_get.
  by destruct (reply w _ ≫= _).
Qed.

(** ** The fields of a record *)

Lemma field_absent (k : string) (default : pyval) (d : list (string * pyval)) :
  assoc k d = None -> field k default d = default.
Proof. unfold field. by intros ->. Qed.

Lemma field_typed (p : pyval -> bool) (k : string) (default : pyval)
    (d : list (string * pyval)) :
  absent_or p k d = true -> p default = true -> p (field k default d) = true.
Proof. unfold absent_or, field. by destruct (assoc k d). Qed.

Lemma join_items_strings (l : list pyval) :
  forallb is_str l = true -> forall i, exists ss, join_items i l = Ok ss.
Proof.
  induction l as [|v l IH]; intros H i; simpl in *; [by eexists|].
  apply andb_prop in H as [Hv Hl].
  destruct v; try discriminate.
  destruct (IH Hl (S i)) as [ss ->]. simpl. by eexists.
Qed.

Lemma forallb_take {A} (p : A -> bool) (n : nat) (l : list A) :
  forallb p l = true -> forallb p (take n l) = true.
Proof.
  revert n. induction l as [|x l IH]; intros [|n] H; simpl in *; try done.
  apply andb_prop in H as [-> Hl]. simpl. by apply IH.
Qed.

Lemma py_join_strings (sep : string) (l : list pyval) :
  forallb is_str l = true -> exists s, py_join sep (PyList l) = Ok (PyStr s).
Proof.
  intros H. unfold py_join. simpl.
  destruct (join_items_strings l H 0%nat) as [ss ->]. simpl. by eexists.
Qed.

Lemma job_location_absent (d : list (string * pyval)) :
  assoc "locations_derived" d = None -> assoc "location" d = None ->
  job_location (PyDict d) = Ok (PyStr "N/A").
Proof. intros H1 H2. unfold job_location. simpl. by rewrite H1, H2. Qed.

Lemma job_type_absent (d : list (string * pyval)) :
  assoc "employment_type" d = None -> job_type (PyDict d) = Ok (PyStr "N/A").
Proof. intros H. unfold job_type. simpl. by rewrite H. Qed.

Lemma job_location_ok (d : list (string * pyval)) :
  absent_or is_str_list "locations_derived" d = true ->
  exists v, job_location (PyDict d) = Ok v
            /\ (absent_or is_str "location" d = true -> is_str v = true).
Proof.
  unfold absent_or, job_location. simpl.
  destruct (assoc "locations_derived" d) as [v|]; simpl.
  - destruct v as [| | | | |l|]; try discriminate. simpl.
    destruct l as [|x l]; simpl.
    + intros _. destruct (assoc "location" d) as [v|]; simpl.
      * destruct (truthy v); eauto.
      * eauto.
    + intros H.
      destruct (py_join_strings ", " (take 2 (x :: l))) as [s Hs].
      { by apply forallb_take. }
      simpl in Hs. simpl. rewrite Hs. eauto.
  - intros _. destruct (assoc "location" d) as [v|]; simpl.
    + destruct (truthy v); eauto.
    + eauto.
Qed.

Lemma job_type_ok (d : list (string * pyval)) :
  absent_or is_str_list "employment_type" d = true ->
  exists v, job_type (PyDict d) = Ok v /\ is_str v = true.
Proof.
  unfold absent_or, job_type. simpl.
  destruct (assoc "employment_type" d) as [v|]; simpl; [|eauto].
  destruct v as [| | | | |l|]; try discriminate. simpl.
  destruct l as [|x l]; simpl; [eauto|].
  intros H. destruct (py_join_strings ", " (x :: l) H) as [s Hs].
  rewrite Hs. eauto.
Qed.

(** The record of a job object, given its location and type. *)
Lemma parse_job_dict (d : list (string * pyval)) :
  parse_job (PyDict d)
  = (loc ← job_location (PyDict d);
     ty ← job_type (PyDict d);
     Ok (JobRecord
           (field "title" (PyStr "N/A") d)
           (field "organization" (PyStr "N/A") d)
           loc
           (field "date_posted" (field "posted_at" (PyStr "N/A") d) d)
           (field "description_text"
              (field "description" (PyStr "No description available") d) d)
           (field "url" (field "apply_url" (PyStr "#") d) d)
           ty
           (field "remote_derived" (field "remote" (PyBool false) d) d)
           (field "salary_raw" (PyStr "Not specified") d)
           (field "linkedin_org_industry" (PyStr "N/A") d))).
Proof. reflexivity. Qed.

(** A job whose title is a number is accepted, and its record carries the
    number: not every field of a record is a string. *)
Lemma numeric_title_passes_through :
  exists r, parse_job (PyDict [("title", PyInt 5)]) = Ok r
            /\ title r = PyInt 5 /\ record_typed r = false.
Proof. eexists. split; [reflexivity | split; reflexivity]. Qed.

(** C2, amended: a job object is rejected only for a malformed
    [locations_derived] or [employment_type], never for a missing field; the
    fields of its record are the payload's values, copied as they are, with
    the defined fallback for each field the payload omits; so they are all
    strings, and [remote] a boolean, whenever the fields the payload has are
    of these types. *)
Theorem parse_job_fields (d : list (string * pyval)) :
  (absent_or is_str_list "locations_derived" d = true ->
   absent_or is_str_list "employment_type" d = true ->
   exists r, parse_job (PyDict d) = Ok r)
  /\ (forall r, parse_job (PyDict d) = Ok r ->
        (payload_typed d = true -> record_typed r = true)
        /\ title r = field "title" (PyStr "N/A") d
        /\ company r = field "organization" (PyStr "N/A") d
        /\ posted_date r
           = field "date_posted" (field "posted_at" (PyStr "N/A") d) d
        /\ description r
           = field "description_text"
               (field "description" (PyStr "No description available") d) d
        /\ apply_url r = field "url" (field "apply_url" (PyStr "#") d) d
        /\ remote r
           = field "remote_derived" (field "remote" (PyBool false) d) d
        /\ salary r = field "salary_raw" (PyStr "Not specified") d
        /\ industry r = field "linkedin_org_industry" (PyStr "N/A") d
        /\ (assoc "locations_derived" d = None -> assoc "location" d = None ->
            location r = PyStr "N/A")
        /\ (assoc "employment_type" d = None -> type r = PyStr "N/A")).
Proof.
  rewrite parse_job_dict. split.
  - intros Hl Ht.
    destruct (job_location_ok d Hl) as (loc & -> & _).
    destruct (job_type_ok d Ht) as (ty & -> & _).
    simpl. by eexists.
  - intros r Hr.
    destruct (job_location (PyDict d)) as [loc|e] eqn:Hloc; [|discriminate].
    destruct (job_type (PyDict d)) as [ty|e] eqn:Hty; [|discriminate].
    simpl in Hr. injection Hr as <-. simpl.
    split; [|repeat split].
    + unfold payload_typed, record_typed. simpl. intros H.
      repeat (apply andb_prop in H as [H ?]).
      destruct (job_location_ok d H) as (loc' & Hloc' & Hs).
      rewrite Hloc in Hloc'. injection Hloc' as <-.
      destruct (job_type_ok d) as (ty' & Hty' & Hs'); [done|].
      rewrite Hty in Hty'. injection Hty' as <-.
      rewrite Hs, Hs' by done.
      repeat match goal with
             | |- context [?p (field ?k ?default d)] =>
                 rewrite (field_typed p k default d)
                   by first [done | by apply field_typed]
             end.
      reflexivity.
    + intros H1 H2. rewrite (job_location_absent d H1 H2) in Hloc.
      by injection Hloc as <-.
    + intros H. rewrite (job_type_absent d H) in Hty. by injection Hty as <-.
Qed.

Lemma parse_job_fields_witness :
  (exists r, parse_job (PyDict []) = Ok r)
  /\ record_typed fallback_record = true
  /\ title fallback_record = PyStr "N/A"
  /\ location fallback_record = PyStr "N/A"
  /\ type fallback_record = PyStr "N/A".
Proof.
  destruct (parse_job_fields []) as [Hex Hall].
  split; [apply Hex; reflexivity |].
  destruct (Hall fallback_record eq_refl)
    as (Hty & Htitle & _ & _ & _ & _ & _ & _ & _ & Hloc & Htype).
  split; [apply Hty; reflexivity |].
  split; [exact Htitle |].
  split; [apply Hloc; reflexivity | apply Htype; reflexivity].
Defined.

(** ** Further checks on sample inputs *)

(** A body that is no JSON: [response.json()] raises, and the search reports
    it under the class of the exception. *)
Example search_malformed_body :
  fst (search_sap_jobs sample_client 7 None None 100 0 true
         (sample_world
            (Ok (Response 200 "<html>"
                   (Raise (Exn RequestException "Expecting value"))))))
  = Ok (failure "Network error: Expecting value")
  /\ fst (search_sap_jobs sample_client 7 None None 100 0 true
            (sample_world
               (Ok (Response 200 "<html>"
                      (Raise (Exn (OtherException "ValueError")
                                "Expecting value"))))))
     = Ok (failure "Unexpected error: Expecting value").
Proof. split; reflexivity. Qed.

Example search_rate_limited :
  fst (search_sap_jobs sample_client 7 None None 100 0 true
         (sample_world (Ok (Response 429 "" (Ok PyNone)))))
  = Ok (failure "Rate limit exceeded. Please wait a moment and try again.").
Proof. reflexivity. Qed.

Example search_timed_out :
  fst (search_sap_jobs sample_client 7 None None 100 0 true
         (sample_world (Raise (Exn Timeout "read timed out"))))
  = Ok (failure "Request timed out. Please try again.").
Proof. reflexivity. Qed.

(** Without the secrets the constructor leaves both credentials unset, and
    every search fails before any request. *)
Lemma init_without_secrets days_back location remote limit offset include_text
    (w : world) :
  search_sap_jobs (__init__ ∅) days_back location remote limit offset
    include_text w
  = (Ok (failure "API credentials not configured"), w).
Proof. reflexivity. Qed.

(** A string under [locations_derived] is sliced and joined by characters. *)
Example location_of_string :
  job_location (PyDict [("locations_derived", PyStr "Berlin")])
  = Ok (PyStr "B, e").
Proof. reflexivity. Qed.

(** Only the first two derived locations are kept. *)
Example location_of_three :
  job_location
    (PyDict [("locations_derived",
              PyList [PyStr "Berlin"; PyStr "Munich"; PyStr "Remote"])])
  = Ok (PyStr "Berlin, Munich").
Proof. reflexivity. Qed.

(** ** The classification of the HTTP outcome *)

(** What a configured search returns, by the answer to its one request. *)
Lemma search_by_reply self days_back location remote limit offset include_text
    (w : world) :
  configured self -> days_in_range days_back -> clock_in_range w ->
  fst (search_sap_jobs self days_back location remote limit offset include_text w)
  = match reply w (build_request self location remote limit offset) with
    | Raise e => Ok (handler e)
    | Ok resp =>
        if (status_code resp =? 200)%Z then
          match data ← json resp; parsed ← _parse_jobs data;
                Ok (Result true None parsed (Some (raw_total data))) with
          | Ok r => Ok r
          | Raise e => Ok (handler e)
          end
        else if (status_code resp =? 429)%Z then
          Ok (failure "Rate limit exceeded. Please wait a moment and try again.")
        else
          Ok (failure ("API error: " ++ pretty (status_code resp) ++ " - "
                         ++ text resp))
    end.
Proof.
  intros Hc Hd Hw. rewrite (search_configured _ _ _ _ _ _ _ _ Hc Hd Hw).
  unfold send, requests_get. simpl.
  destruct (reply w _) as [resp|e]; simpl; [|done].
  destruct (status_code resp =? 200)%Z; [done|].
  by destruct (status_code resp =? 429)%Z.
Qed.

(** X1: a 429 answer gives the rate-limit failure, whatever its body; the
    body is not decoded. *)
Theorem status_429_rate_limited
    self days_back location remote limit offset include_text
    (w : world) (resp : response) :
  configured self -> days_in_range days_back -> clock_in_range w ->
  reply w (build_request self location remote limit offset) = Ok resp ->
  status_code resp = 429%Z ->
  fst (search_sap_jobs self days_back location remote limit offset include_text w)
  = Ok (failure "Rate limit exceeded. Please wait a moment and try again.").
Proof.
  intros Hc Hd Hw Hr Hs.
  by rewrite (search_by_reply _ _ _ _ _ _ _ _ Hc Hd Hw), Hr, Hs.
Qed.

Lemma status_429_rate_limited_witness :
  fst (search_sap_jobs sample_client 7 None None 100 0 true
         (sample_world
            (Ok (Response 429 "Too Many Requests"
                   (Raise (Exn RequestException "Expecting value"))))))
  = Ok (failure "Rate limit exceeded. Please wait a moment and try again.").
Proof.
  apply (status_429_rate_limited sample_client 7 None None 100 0 true
           (sample_world
              (Ok (Response 429 "Too Many Requests"
                     (Raise (Exn RequestException "Expecting value")))))
           (Response 429 "Too Many Requests"
              (Raise (Exn RequestException "Expecting value"))));
    side_condition.
Defined.

(** X2: an answer with a status other than 200 and 429 gives the failure
    "API error: <status> - <body>", with the status in decimal and the body
    as received; the body is not decoded. *)
Theorem other_status_api_error
    self days_back location remote limit offset include_text
    (w : world) (resp : response) :
  configured self -> days_in_range days_back -> clock_in_range w ->
  reply w (build_request self location remote limit offset) = Ok resp ->
  status_code resp <> 200%Z -> status_code resp <> 429%Z ->
  fst (search_sap_jobs self days_back location remote limit offset include_text w)
  = Ok (failure ("API error: " ++ pretty (status_code resp) ++ " - "
                   ++ text resp)).
Proof.
  intros Hc Hd Hw Hr H200 H429.
  rewrite (search_by_reply _ _ _ _ _ _ _ _ Hc Hd Hw), Hr.
  destruct (Z.eqb_spec (status_code resp) 200); [done|].
  by destruct (Z.eqb_spec (status_code resp) 429).
Qed.

Lemma other_status_api_error_witness :
  fst (search_sap_jobs sample_client 7 None None 100 0 true
         (sample_world (Ok (Response 403 "Forbidden" (Ok PyNone)))))
  = Ok (failure "API error: 403 - Forbidden").
Proof.
  apply (other_status_api_error sample_client 7 None None 100 0 true
           (sample_world (Ok (Response 403 "Forbidden" (Ok PyNone))))
           (Response 403 "Forbidden" (Ok PyNone)));
    first [side_condition | discriminate].
Defined.

(** X3: an exception of the request, or of the decoding of a 200 body, is
    reported by its class: a timeout as "Request timed out. Please try
    again.", another request exception as "Network error: " and its text. *)
Theorem request_exceptions_reported
    self days_back location remote limit offset include_text
    (w : world) (e : exn) :
  configured self -> days_in_range days_back -> clock_in_range w ->
  reply w (build_request self location remote limit offset) = Raise e
  \/ (exists resp,
        reply w (build_request self location remote limit offset) = Ok resp
        /\ status_code resp = 200%Z /\ json resp = Raise e) ->
  (exn_class_of e = Timeout ->
   fst (search_sap_jobs self days_back location remote limit offset
          include_text w)
   = Ok (failure "Request timed out. Please try again."))
  /\ (exn_class_of e = RequestException ->
      fst (search_sap_jobs self days_back location remote limit offset
             include_text w)
      = Ok (failure ("Network error: " ++ exn_str e))).
Proof.
  intros Hc Hd Hw H.
  assert (fst (search_sap_jobs self days_back location remote limit offset
                 include_text w) = Ok (handler e)) as ->.
  { rewrite (search_by_reply _ _ _ _ _ _ _ _ Hc Hd Hw).
    destruct H as [-> | (resp & -> & -> & ->)]; done. }
  unfold handler. by split; intros ->.
Qed.

Lemma request_exceptions_reported_witness :
  fst (search_sap_jobs sample_client 7 None None 100 0 true
         (sample_world (Raise (Exn RequestException "connection refused"))))
  = Ok (failure "Network error: connection refused").
Proof.
  apply (request_exceptions_reported sample_client 7 None None 100 0 true
           (sample_world (Raise (Exn RequestException "connection refused")))
           (Exn RequestException "connection refused"));
    first [side_condition | by left].
Defined.

(** X4: a 200 answer whose JSON body is neither an array nor an object with
    a ["jobs"] key, an error object for instance, is reported as a success
    with no job and a total of 0. *)
Theorem unrecognised_body_is_empty_success
    self days_back location remote limit offset include_text
    (w : world) (resp : response) (data : pyval) :
  configured self -> days_in_range days_back -> clock_in_range w ->
  reply w (build_request self location remote limit offset) = Ok resp ->
  status_code resp = 200%Z -> json resp = Ok data ->
  is_list data = false -> has_jobs_key data = false ->
  fst (search_sap_jobs self days_back location remote limit offset include_text w)
  = Ok (Result true None [] (Some 0%Z)).
Proof.
  intros Hc Hd Hw Hr Hs Hj Hl Hk.
  rewrite (search_ok_200 _ _ _ _ _ _ _ _ _ _ Hc Hd Hw Hr Hs Hj).
  destruct data; simpl in *; try done.
  by rewrite Hk.
Qed.

Lemma unrecognised_body_is_empty_success_witness :
  fst (search_sap_jobs sample_client 7 None None 100 0 true
         (sample_world
            (answers (PyDict [("message", PyStr "You are not subscribed")]))))
  = Ok (Result true None [] (Some 0%Z)).
Proof.
  apply (unrecognised_body_is_empty_success sample_client 7 None None 100 0
           true
           (sample_world
              (answers (PyDict [("message", PyStr "You are not subscribed")])))
           (Response 200 ""
              (Ok (PyDict [("message", PyStr "You are not subscribed")])))
           (PyDict [("message", PyStr "You are not subscribed")]));
    side_condition.
Defined.

(** ** The request *)

(** X5: a configured search sends exactly one request, whatever comes back:
    a GET of the client's URL with a timeout of 30, the key and the host as
    the only two headers, and the built parameters; nothing is retried. *)
Theorem search_sends_one_request
    self days_back location remote limit offset include_text (w : world) :
  configured self -> days_in_range days_back -> clock_in_range w ->
  exists rq,
    calls (snd (search_sap_jobs self days_back location remote limit offset
                  include_text w)) = (calls w ++ [rq])%list
    /\ url rq = base_url self /\ timeout rq = 30%Z
    /\ params rq = build_params location remote limit offset
    /\ Some <$> headers rq
       = {[ "X-RapidAPI-Key" := api_key self;
            "X-RapidAPI-Host" := api_host self ]}.
Proof.
  intros Hc Hd Hw.
  exists (build_request self location remote limit offset).
  split; [by apply search_sends_request |].
  repeat split. simpl. unfold build_headers.
  destruct Hc as [Hk Hh].
  destruct (api_key self) as [k|]; [|discriminate].
  destruct (api_host self) as [h|]; [|discriminate].
  simpl. rewrite !fmap_insert, fmap_empty, insert_empty.
  apply insert_insert_ne. done.
Qed.

Lemma search_sends_one_request_witness :
  exists rq,
    calls (snd (search_sap_jobs sample_client 7 None None 100 0 true
                  (sample_world (Raise unreachable))))
    = (calls (sample_world (Raise unreachable)) ++ [rq])%list
    /\ url rq = base_url sample_client /\ timeout rq = 30%Z
    /\ params rq = build_params None None 100 0
    /\ Some <$> headers rq
       = {[ "X-RapidAPI-Key" := api_key sample_client;
            "X-RapidAPI-Host" := api_host sample_client ]}.
Proof.
  apply (search_sends_one_request sample_client 7 None None 100 0 true
           (sample_world (Raise unreachable))); side_condition.
Defined.

(** X6: the parameters always hold the title filter "SAP", the caller's
    limit and offset as they are, and the description type "text"; besides
    these only a location filter and a remote flag can occur. Neither the
    cutoff date nor [days_back] is among them. *)
Theorem build_params_fixed (location : option string) (remote : option bool)
    (limit offset : Z) :
  build_params location remote limit offset !! "title_filter" = Some (PyStr "SAP")
  /\ build_params location remote limit offset !! "limit" = Some (PyInt limit)
  /\ build_params location remote limit offset !! "offset" = Some (PyInt offset)
  /\ build_params location remote limit offset !! "description_type"
     = Some (PyStr "text")
  /\ forall k, is_Some (build_params location remote limit offset !! k) ->
               k ∈ param_keys.
Proof.
  unfold build_params, param_keys.
  destruct location as [l|];
    [destruct (negb (String.eqb l "") && negb (String.eqb l "All Locations"))|];
    destruct remote as [[|]|]; simplify_map_eq;
    (repeat split; try done; intros k Hk;
     repeat (rewrite lookup_insert in Hk; case_decide; [subst; set_solver |]);
     rewrite lookup_empty in Hk; by destruct Hk).
Qed.

Lemma build_params_fixed_witness :
  build_params (Some "Pune") (Some true) 25 (-25) !! "offset"
  = Some (PyInt (-25))
  /\ "remote" ∈ param_keys.
Proof.
  destruct (build_params_fixed (Some "Pune") (Some true) 25 (-25))
    as (_ & _ & Hoffset & _ & Hkeys).
  split; [exact Hoffset |].
  apply (Hkeys "remote"). exists (PyStr "true"). reflexivity.
Defined.

(** X7: [days_back] and [include_text] have no effect on a search: for any
    two values of each, with [days_back] in range, the result, the request
    sent and the world afterwards are the same. *)
Theorem days_back_has_no_effect
    self location remote limit offset (w : world)
    (days_back days_back' : Z) (include_text include_text' : bool) :
  days_in_range days_back -> days_in_range days_back' -> clock_in_range w ->
  search_sap_jobs self days_back location remote limit offset include_text w
  = search_sap_jobs self days_back' location remote limit offset include_text' w.
Proof.
  intros Hd Hd' Hw. unfold search_sap_jobs.
  by rewrite (posted_after_in_range _ _ Hd Hw), (posted_after_in_range _ _ Hd' Hw).
Qed.

Lemma days_back_has_no_effect_witness :
  search_sap_jobs sample_client 1 None None 100 0 true
    (sample_world (answers (PyList mixed_batch)))
  = search_sap_jobs sample_client 30 None None 100 0 false
      (sample_world (answers (PyList mixed_batch))).
Proof.
  apply (days_back_has_no_effect sample_client None None 100 0
           (sample_world (answers (PyList mixed_batch))) 1 30 true false);
    side_condition.
Defined.

(** ** The constructor *)

Lemma init_of_secrets (secrets : gmap string (gmap string string)) :
  __init__ secrets
  = match secret secrets "key", secret secrets "host" with
    | Some key, Some host =>
        Client (Some key) (Some host)
          (if String.eqb host "" then default_url
           else "https://" ++ host ++ "/active-jb-7d")
    | _, _ => Client None None default_url
    end.
Proof.
  unfold __init__, secret.
  destruct (secrets !! "rapidapi") as [rapidapi|]; simpl; [|done].
  destruct (rapidapi !! "key") as [key|]; simpl; [|done].
  by destruct (rapidapi !! "host") as [host|].
Qed.

(** X8: when the secrets lack the key or the host, or hold an empty one, every
    search of the constructed client fails with "API credentials not
    configured" and sends nothing; a key read before the host was found
    missing is dropped with it. *)
Theorem init_without_credentials
    (secrets : gmap string (gmap string string))
    days_back location remote limit offset include_text (w : world) :
  secret secrets "key" = None \/ secret secrets "key" = Some ""
  \/ secret secrets "host" = None \/ secret secrets "host" = Some "" ->
  search_sap_jobs (__init__ secrets) days_back location remote limit offset
    include_text w
  = (Ok (failure "API credentials not configured"), w)
  /\ (secret secrets "host" = None -> api_key (__init__ secrets) = None).
Proof.
  intros H. rewrite init_of_secrets. unfold search_sap_jobs.
  destruct (secret secrets "key") as [key|], (secret secrets "host") as [host|];
    simpl; try done.
  destruct H as [H | [[= ->] | [H | [= ->]]]]; try done.
  by rewrite orb_true_r.
Qed.

Lemma init_without_credentials_witness :
  search_sap_jobs (__init__ partial_secrets) 7 None None 100 0 true
    (sample_world (answers (PyList mixed_batch)))
  = (Ok (failure "API credentials not configured"),
     sample_world (answers (PyList mixed_batch)))
  /\ (secret partial_secrets "host" = None ->
      api_key (__init__ partial_secrets) = None).
Proof.
  apply (init_without_credentials partial_secrets 7 None None 100 0 true
           (sample_world (answers (PyList mixed_batch)))).
  right. right. left. reflexivity.
Defined.

(** X9: when the secrets hold a non-empty key and host, the constructed
    client is configured, and its search sends one request, to
    [https://<host>/active-jb-7d], with the key and the host as headers. *)
Theorem init_with_credentials
    (secrets : gmap string (gmap string string)) (key host : string)
    days_back location remote limit offset include_text (w : world) :
  secret secrets "key" = Some key -> secret secrets "host" = Some host ->
  key <> "" -> host <> "" ->
  days_in_range days_back -> clock_in_range w ->
  configured (__init__ secrets)
  /\ exists rq,
      calls (snd (search_sap_jobs (__init__ secrets) days_back location remote
                    limit offset include_text w)) = (calls w ++ [rq])%list
      /\ url rq = "https://" ++ host ++ "/active-jb-7d"
      /\ headers rq !! "X-RapidAPI-Key" = Some key
      /\ headers rq !! "X-RapidAPI-Host" = Some host.
Proof.
  intros Hk Hh Hkey Hhost Hd Hw.
  rewrite init_of_secrets, Hk, Hh.
  destruct (String.eqb_spec host "") as [|_]; [done|].
  assert (configured
            (Client (Some key) (Some host) ("https://" ++ host ++ "/active-jb-7d")))
    as Hc.
  { split; simpl; by apply String.eqb_neq. }
  split; [exact Hc |].
  eexists. split; [by apply search_sends_request |].
  split; [done |]. simpl. unfold build_headers. simpl.
  by simplify_map_eq.
Qed.

Lemma init_with_credentials_witness :
  configured (__init__ sample_secrets)
  /\ exists rq,
      calls (snd (search_sap_jobs (__init__ sample_secrets) 7 None None 100 0
                    true (sample_world (Raise unreachable))))
      = (calls (sample_world (Raise unreachable)) ++ [rq])%list
      /\ url rq = "https://" ++ "jobs.example.com" ++ "/active-jb-7d"
      /\ headers rq !! "X-RapidAPI-Key" = Some "secret"
      /\ headers rq !! "X-RapidAPI-Host" = Some "jobs.example.com".
Proof.
  apply (init_with_credentials sample_secrets "secret" "jobs.example.com" 7
           None None 100 0 true (sample_world (Raise unreachable)));
    first [side_condition | discriminate].
Defined.

(** ** More on the normaliser *)

Lemma well_formed_records_length (items : list pyval) :
  (List.length (well_formed_records items) <= List.length items)%nat
  /\ (List.length (well_formed_records items) = List.length items
      <-> Forall (fun job => is_Some (parsed job)) items).
Proof.
  unfold well_formed_records.
  induction items as [|job items [IHle IHeq]]; simpl.
  - split; [lia | split; [constructor | done]].
  - change (list_omap pyval job_record parsed items) with (omap parsed items).
    destruct (parsed job) as [r|] eqn:Hjob; simpl.
    + split; [lia |]. split.
      * intros [= H]. constructor; [eauto | by apply IHeq].
      * intros H. inversion H; subst. f_equal. by apply IHeq.
    + split; [lia |]. split; [lia |].
      intros H. inversion H as [|? ? Hsome]; subst.
      rewrite Hjob in Hsome. by destruct Hsome.
Qed.

(** X10: for a body that is a bare array, the total is the length of the
    array, and the jobs returned are never more; they are as many exactly
    when no item was skipped. *)
Theorem jobs_at_most_total
    self days_back location remote limit offset include_text
    (w : world) (resp : response) (items : list pyval) :
  configured self -> days_in_range days_back -> clock_in_range w ->
  reply w (build_request self location remote limit offset) = Ok resp ->
  status_code resp = 200%Z -> json resp = Ok (PyList items) ->
  exists r,
    fst (search_sap_jobs self days_back location remote limit offset
           include_text w) = Ok r
    /\ total r = Some (Z.of_nat (List.length items))
    /\ (Z.of_nat (List.length (jobs r)) <= Z.of_nat (List.length items))%Z
    /\ (List.length (jobs r) = List.length items
        <-> Forall (fun job => exists parsed_job, parse_job job = Ok parsed_job)
              items).
Proof.
  intros Hc Hd Hw Hr Hs Hj.
  rewrite (search_ok_200 _ _ _ _ _ _ _ _ _ _ Hc Hd Hw Hr Hs Hj), parse_jobs_list.
  eexists. split; [reflexivity |]. simpl.
  destruct (well_formed_records_length items) as [Hle Heq].
  split; [done | split; [lia |]].
  rewrite Heq. apply Forall_proper; [|done].
  intros job. unfold parsed.
  destruct (parse_job job) as [r|e]; split.
  - eauto.
  - eauto.
  - by intros [? [=]].
  - by intros [? [=]].
Qed.

Lemma jobs_at_most_total_witness :
  exists r,
    fst (search_sap_jobs sample_client 7 None None 100 0 true
           (sample_world (answers (PyList mixed_batch)))) = Ok r
    /\ total r = Some (Z.of_nat (List.length mixed_batch))
    /\ (Z.of_nat (List.length (jobs r))
        <= Z.of_nat (List.length mixed_batch))%Z
    /\ (List.length (jobs r) = List.length mixed_batch
        <-> Forall (fun job => exists parsed_job, parse_job job = Ok parsed_job)
              mixed_batch).
Proof.
  apply (jobs_at_most_total sample_client 7 None None 100 0 true
           (sample_world (answers (PyList mixed_batch)))
           (Response 200 "" (Ok (PyList mixed_batch)))); side_condition.
Defined.

Lemma parse_job_not_dict (job : pyval) :
  is_dict job = false ->
  parse_job job
  = Raise (Exn AttributeError
             ("'" ++ type_name job ++ "' object has no attribute 'get'")).
Proof. by destruct job. Qed.

(** X11: an item that is no object (a string, a number, [null], a nested
    array) is always skipped: an array without any object gives no record. *)
Theorem non_objects_are_skipped (items : list pyval) :
  Forall (fun job => is_dict job = false) items ->
  _parse_jobs (PyList items) = Ok []
  /\ forall before after,
       _parse_jobs (PyList (before ++ items ++ after))
       = _parse_jobs (PyList (before ++ after)).
Proof.
  intros H.
  assert (well_formed_records items = []) as Hnil.
  { unfold well_formed_records.
    induction H as [|job items Hjob _ IH]; simpl; [done|].
    unfold parsed at 1. by rewrite (parse_job_not_dict job Hjob). }
  rewrite parse_jobs_list, Hnil. split; [done |].
  intros before after. rewrite !parse_jobs_list.
  unfold well_formed_records in *. by rewrite !omap_app, Hnil.
Qed.

Lemma non_objects_are_skipped_witness :
  _parse_jobs (PyList [PyStr "oops"; PyNone; PyInt 3; PyList [acme_job]])
  = Ok []
  /\ forall before after,
       _parse_jobs
         (PyList (before ++ [PyStr "oops"; PyNone; PyInt 3; PyList [acme_job]]
                    ++ after))
       = _parse_jobs (PyList (before ++ after)).
Proof.
  apply (non_objects_are_skipped
           [PyStr "oops"; PyNone; PyInt 3; PyList [acme_job]]).
  repeat constructor.
Defined.

(** X12: the items are normalised independently of each other: the records
    of a concatenation are the records of the first array followed by those
    of the second. *)
Theorem parse_jobs_app (items items' : list pyval) :
  exists records records',
    _parse_jobs (PyList items) = Ok records
    /\ _parse_jobs (PyList items') = Ok records'
    /\ _parse_jobs (PyList (items ++ items')) = Ok (records ++ records')%list.
Proof.
  exists (well_formed_records items), (well_formed_records items').
  rewrite !parse_jobs_list. unfold well_formed_records.
  by rewrite omap_app.
Qed.

Lemma join_items_fmap (names : list string) :
  forall i, join_items i (PyStr <$> names) = Ok names.
Proof.
  induction names as [|s names IH]; intros i; simpl; [done|].
  by rewrite IH.
Qed.

Lemma join_items_not_strings (l : list pyval) :
  forallb is_str l = false -> forall i, exists e, join_items i l = Raise e.
Proof.
  induction l as [|v l IH]; intros H i; simpl in *; [done|].
  destruct v; simpl in *; eauto.
  destruct (IH H (S i)) as [e ->]. simpl. eauto.
Qed.

Lemma join_items_ok_iff (l : list pyval) (i : nat) :
  (exists ss, join_items i l = Ok ss) <-> forallb is_str l = true.
Proof.
  split.
  - intros [ss Hss]. destruct (forallb is_str l) eqn:H; [done|].
    destruct (join_items_not_strings l H i) as [e He]. congruence.
  - intros H. by apply join_items_strings.
Qed.

Lemma py_join_ok_iff (sep : string) (l : list pyval) :
  (exists v, py_join sep (PyList l) = Ok v) <-> forallb is_str l = true.
Proof.
  rewrite <- (join_items_ok_iff l 0). unfold py_join. simpl.
  destruct (join_items 0 l) as [ss|e]; simpl; split; eauto.
  - by intros [? [=]].
  - by intros [? [=]].
Qed.

Lemma py_join_names (sep : string) (names : list string) :
  py_join sep (PyList (PyStr <$> names)) = Ok (PyStr (String.concat sep names)).
Proof. unfold py_join. simpl. by rewrite join_items_fmap. Qed.

Lemma py_join_keys (sep : string) (d : list (string * pyval)) :
  py_join sep (PyDict d) = Ok (PyStr (String.concat sep d.*1)).
Proof.
  unfold py_join, py_iter.
  assert (forall i, join_items i ((fun kv => PyStr (fst kv)) <$> d) = Ok d.*1)
    as ->; [|done].
  induction d as [|[k v] d IH]; intros i; simpl; [done|].
  by rewrite IH.
Qed.

(** The plain location is always usable. *)
Lemma plain_location (d : list (string * pyval)) :
  (plain ← py_get (PyDict d) "location" PyNone;
   if truthy plain then py_getitem (PyDict d) "location" else Ok (PyStr "N/A"))
  = Ok (if truthy (field "location" PyNone d) then field "location" PyNone d
        else PyStr "N/A").
Proof.
  unfold field, py_get, py_getitem. simpl.
  destruct (assoc "location" d) as [v|]; simpl; [|done].
  by destruct (truthy v).
Qed.

Lemma job_location_falsy (d : list (string * pyval)) :
  truthy (field "locations_derived" PyNone d) = false ->
  job_location (PyDict d)
  = Ok (if truthy (field "location" PyNone d) then field "location" PyNone d
        else PyStr "N/A").
Proof.
  intros H. unfold job_location. unfold field in H. simpl. rewrite H.
  apply plain_location.
Qed.

Lemma job_location_names (d : list (string * pyval)) (names : list string) :
  names <> [] ->
  assoc "locations_derived" d = Some (PyList (PyStr <$> names)) ->
  job_location (PyDict d) = Ok (PyStr (String.concat ", " (take 2 names))).
Proof.
  intros Hne H. unfold job_location. simpl. rewrite H. simpl.
  destruct names as [|s names]; [done|]. simpl.
  rewrite <- fmap_take.
  exact (py_join_names ", " (take 2 (s :: names))).
Qed.

Lemma job_location_ok_iff (d : list (string * pyval)) :
  (exists v, job_location (PyDict d) = Ok v)
  <-> location_ok (field "locations_derived" PyNone d) = true.
Proof.
  unfold location_ok.
  destruct (truthy (field "locations_derived" PyNone d)) eqn:Ht; simpl.
  - unfold job_location. unfold field in *. simpl. rewrite Ht.
    destruct (assoc "locations_derived" d) as [v|]; simpl in *; [|done].
    destruct v as [| | | | s | l | d']; simpl;
      try (split; [by intros [? [=]] | done]).
    + split; [done | intros _].
      unfold py_join. simpl. rewrite join_items_fmap. simpl. eauto.
    + apply py_join_ok_iff.
  - rewrite (job_location_falsy d Ht). split; eauto.
Qed.

Lemma job_type_falsy (d : list (string * pyval)) :
  truthy (field "employment_type" PyNone d) = false ->
  job_type (PyDict d) = Ok (PyStr "N/A").
Proof. intros H. unfold job_type. unfold field in H. simpl. by rewrite H. Qed.

Lemma job_type_names (d : list (string * pyval)) (names : list string) :
  names <> [] ->
  assoc "employment_type" d = Some (PyList (PyStr <$> names)) ->
  job_type (PyDict d) = Ok (PyStr (String.concat ", " names)).
Proof.
  intros Hne H. unfold job_type. simpl. rewrite H. simpl.
  destruct names as [|s names]; [done|]. apply py_join_names.
Qed.

Lemma job_type_ok_iff (d : list (string * pyval)) :
  (exists v, job_type (PyDict d) = Ok v)
  <-> type_ok (field "employment_type" PyNone d) = true.
Proof.
  unfold type_ok.
  destruct (truthy (field "employment_type" PyNone d)) eqn:Ht; simpl.
  - unfold job_type. unfold field in *. simpl. rewrite Ht.
    destruct (assoc "employment_type" d) as [v|]; simpl in *; [|done].
    destruct v as [| | | | s | l | d']; simpl;
      try (split; [by intros [? [=]] | done]).
    + split; [done | intros _].
      unfold py_join. simpl. rewrite join_items_fmap. simpl. eauto.
    + apply py_join_ok_iff.
    + split; [done | intros _].
      rewrite (py_join_keys ", " d'). eauto.
  - rewrite (job_type_falsy d Ht). split; eauto.
Qed.

Lemma parse_job_location_type (d : list (string * pyval)) (r : job_record) :
  parse_job (PyDict d) = Ok r ->
  job_location (PyDict d) = Ok (location r)
  /\ job_type (PyDict d) = Ok (type r).
Proof.
  rewrite parse_job_dict.
  destruct (job_location (PyDict d)) as [loc|e]; [|discriminate].
  destruct (job_type (PyDict d)) as [ty|e]; [|discriminate].
  simpl. by intros [= <-].
Qed.

(** X13: the location of a record is the first two derived locations joined
    with ", " (the only one if there is one), whatever the plain location;
    without derived locations (none, [null] or an empty list) it is the plain
    location, and "N/A" when that is missing, [null] or empty. *)
Theorem location_rule (d : list (string * pyval)) (r : job_record) :
  parse_job (PyDict d) = Ok r ->
  (forall names, names <> [] ->
     assoc "locations_derived" d = Some (PyList (PyStr <$> names)) ->
     location r = PyStr (String.concat ", " (take 2 names)))
  /\ (truthy (field "locations_derived" PyNone d) = false ->
      location r
      = if truthy (field "location" PyNone d) then field "location" PyNone d
        else PyStr "N/A").
Proof.
  intros Hr. destruct (parse_job_location_type d r Hr) as [Hloc _].
  split.
  - intros names Hne H. rewrite (job_location_names d names Hne H) in Hloc.
    by injection Hloc as <-.
  - intros H. rewrite (job_location_falsy d H) in Hloc.
    by injection Hloc as <-.
Qed.

Lemma location_rule_witness :
  location acme_record = PyStr (String.concat ", " (take 2 ["Berlin"; "Remote"])).
Proof.
  apply (proj1 (location_rule
                  [("title", PyStr "SAP Consultant");
                   ("organization", PyStr "Acme");
                   ("locations_derived", PyList [PyStr "Berlin"; PyStr "Remote"]);
                   ("remote_derived", PyBool true)]
                  acme_record eq_refl) ["Berlin"; "Remote"]);
    [discriminate | reflexivity].
Defined.

(** X14: the type of a record is all the employment types joined with ", ",
    none left out, and "N/A" when the payload has none ([null] and the empty
    list included). *)
Theorem type_rule (d : list (string * pyval)) (r : job_record) :
  parse_job (PyDict d) = Ok r ->
  (forall names, names <> [] ->
     assoc "employment_type" d = Some (PyList (PyStr <$> names)) ->
     type r = PyStr (String.concat ", " names))
  /\ (truthy (field "employment_type" PyNone d) = false ->
      type r = PyStr "N/A").
Proof.
  intros Hr. destruct (parse_job_location_type d r Hr) as [_ Hty].
  split.
  - intros names Hne H. rewrite (job_type_names d names Hne H) in Hty.
    by injection Hty as <-.
  - intros H. rewrite (job_type_falsy d H) in Hty. by injection Hty as <-.
Qed.

Lemma type_rule_witness :
  type (JobRecord (PyStr "N/A") (PyStr "N/A") (PyStr "N/A") (PyStr "N/A")
          (PyStr "No description available") (PyStr "#")
          (PyStr "FULL_TIME, CONTRACTOR, INTERN")
          (PyBool false) (PyStr "Not specified") (PyStr "N/A"))
  = PyStr (String.concat ", " ["FULL_TIME"; "CONTRACTOR"; "INTERN"]).
Proof.
  apply (proj1 (type_rule
                  [("employment_type",
                    PyList [PyStr "FULL_TIME"; PyStr "CONTRACTOR";
                            PyStr "INTERN"])]
                  _ eq_refl) ["FULL_TIME"; "CONTRACTOR"; "INTERN"]);
    [discriminate | reflexivity].
Defined.

(** X15: an item yields a record exactly when it is an object whose derived
    locations are usable (a false value, a string, or a list whose first two
    entries are strings) and whose employment types are (a false value, a
    string, an object, or a list of strings); no other field can make the
    extraction fail. *)
Theorem parse_job_ok_iff (job : pyval) :
  (exists r, parse_job job = Ok r)
  <-> exists d, job = PyDict d
                /\ location_ok (field "locations_derived" PyNone d) = true
                /\ type_ok (field "employment_type" PyNone d) = true.
Proof.
  split.
  - intros [r Hr].
    destruct (is_dict job) eqn:Hd.
    + destruct job as [| | | | | |d]; try discriminate.
      exists d. destruct (parse_job_location_type d r Hr) as [Hloc Hty].
      split; [done | split].
      * apply job_location_ok_iff. eauto.
      * apply job_type_ok_iff. eauto.
    + rewrite (parse_job_not_dict job Hd) in Hr. discriminate.
  - intros (d & -> & Hloc & Hty).
    apply job_location_ok_iff in Hloc as [loc Hloc].
    apply job_type_ok_iff in Hty as [ty Hty].
    rewrite parse_job_dict, Hloc, Hty. simpl. eauto.
Qed.

Lemma parse_job_ok_iff_witness :
  exists r,
    parse_job
      (PyDict [("locations_derived", PyList [PyStr "Pune"; PyStr "India"; PyInt 7]);
               ("title", PyNone)]) = Ok r.
Proof.
  apply (proj2 (parse_job_ok_iff _)).
  eexists. split; [reflexivity | split; reflexivity].
Defined.

(** ** The page *)


(** X16: a job whose payload has neither [url] nor [apply_url] gets no
    "Apply Now" button, and one without [remote_derived] and [remote] no
    remote badge; a payload with a non-empty [url] string other than "#" gets
    a button to exactly it, whatever [apply_url] holds. *)
Theorem card_of_payload (py_str : pyval -> string)
    (d : list (string * pyval)) (r : job_record) (index : nat) :
  parse_job (PyDict d) = Ok r ->
  (assoc "url" d = None -> assoc "apply_url" d = None ->
   card_apply (display_job_card py_str r index) = None)
  /\ (assoc "remote_derived" d = None -> assoc "remote" d = None ->
      remote_badge r = "")
  /\ (forall u, assoc "url" d = Some (PyStr u) -> u <> "" -> u <> "#" ->
        card_apply (display_job_card py_str r index) = Some (PyStr u)).
Proof.
  rewrite parse_job_dict.
  destruct (job_location (PyDict d)) as [loc|e]; [|discriminate].
  destruct (job_type (PyDict d)) as [ty|e]; [|discriminate].
  simpl. intros [= <-].
  unfold display_job_card, remote_badge, field. simpl.
  split; [|split].
  - by intros -> ->.
  - by intros -> ->.
  - intros u -> Hu Hhash. simpl.
    apply String.eqb_neq in Hu, Hhash. by rewrite Hu, Hhash.
Qed.

Lemma card_of_payload_witness :
  card_apply (display_job_card sample_str acme_record 0) = None
  /\ card_apply
       (display_job_card sample_str
          (JobRecord (PyStr "N/A") (PyStr "N/A") (PyStr "N/A") (PyStr "N/A")
             (PyStr "No description available")
             (PyStr "https://example.com/job/1") (PyStr "N/A") (PyBool false)
             (PyStr "Not specified") (PyStr "N/A")) 0)
     = Some (PyStr "https://example.com/job/1").
Proof.
  split.
  - apply (proj1 (card_of_payload sample_str
                    [("title", PyStr "SAP Consultant");
                     ("organization", PyStr "Acme");
                     ("locations_derived",
                      PyList [PyStr "Berlin"; PyStr "Remote"]);
                     ("remote_derived", PyBool true)]
                    acme_record 0 eq_refl)); reflexivity.
  - apply (proj2 (proj2 (card_of_payload sample_str
                           [("url", PyStr "https://example.com/job/1");
                            ("apply_url", PyStr "#")] _ 0 eq_refl)));
      [reflexivity | discriminate | discriminate].
Defined.










Lemma main_page_start (py_str : pyval -> string)
    (secrets : gmap string (gmap string string)) (sb : sidebar)
    (clicked : button) (st : session_state) (w : world) :
  (0 < results_per_page sb)%Z ->
  page_start (results_per_page sb) (page_offset st) ->
  page_start (results_per_page sb)
    (page_offset (snd (fst (main py_str secrets sb clicked st w)))).
Proof.
  intros Hsize [Hpos Hdiv]. unfold main.
  destruct (_ || _); [|done].
  destruct (search_sap_jobs _ _ _ _ _ _ _ w) as [[results|e] w']; [|done].
  destruct (success results); [|done].
  destruct (jobs results); [done|].
  destruct (total results); [|done].
  destruct (Z.gtb_spec (page_offset st) 0); simpl.
  - destruct (bool_decide (clicked = PreviousPage)); simpl.
    + split.
      * destruct Hdiv as [k Hk]. rewrite Hk in *.
        assert (1 <= k)%Z by nia. nia.
      * by apply Z.divide_sub_r; [|apply Z.divide_refl].
    + destruct (floordiv _ _); [|done].
      destruct (_ && bool_decide (clicked = NextPage)); [|done]. simpl.
      split; [lia | by apply Z.divide_add_r; [|apply Z.divide_refl]].
  - destruct (floordiv _ _); [|done].
    destruct (_ && bool_decide (clicked = NextPage)); [|done]. simpl.
    split; [lia | by apply Z.divide_add_r; [|apply Z.divide_refl]].
Qed.

(** X20: as long as the page size is not changed, the page offset stays the
    start of a page, a non-negative multiple of the page size, through every
    sequence of interactions, whatever the server answers; in particular
    "Previous Page" never leads below the first page. *)
Theorem page_offset_invariant (py_str : pyval -> string)
    (secrets : gmap string (gmap string string)) (size : Z)
    (inputs : list (sidebar * button)) :
  (0 < size)%Z ->
  Forall (fun input => results_per_page (fst input) = size) inputs ->
  forall (st : session_state) (w : world),
    page_start size (page_offset st) ->
    page_start size (page_offset (fst (interact py_str secrets inputs st w))).
Proof.
  intros Hsize Hall.
  induction Hall as [|[sb clicked] inputs Hsb _ IH]; intros st w Hst; [done|].
  simpl in Hsb. subst size. simpl.
  destruct (run py_str secrets sb clicked st w) as [[shown st'] w'] eqn:Hrun.
  apply IH. unfold run in Hrun.
  pose proof (main_page_start py_str secrets sb clicked st w Hsize Hst) as H1.
  destruct (main py_str secrets sb clicked st w) as [[shown1 st1] w1].
  simpl in H1.
  assert (page_start (results_per_page sb)
            (page_offset (snd (fst (main py_str secrets sb NoButton st1 w1)))))
    as H2 by by apply main_page_start.
  destruct shown1 as [[| | | |]|]; try (injection Hrun as _ <- _; exact H1).
  by rewrite Hrun in H2.
Qed.

Lemma page_offset_invariant_witness :
  page_start 10
    (page_offset
       (fst (interact sample_str sample_secrets
               [(sample_sidebar, SearchJobs); (sample_sidebar, PreviousPage);
                (sample_sidebar, NextPage)]
               fresh_session
               (sample_world (answers (PyList (replicate 10 acme_job))))))).
Proof.
  apply (page_offset_invariant sample_str sample_secrets 10);
    [lia | repeat constructor | split; [simpl; lia | apply Z.divide_0_r]].
Defined.

Example paging_forward :
  page_offset
    (fst (interact sample_str sample_secrets
            [(sample_sidebar, SearchJobs); (sample_sidebar, NextPage);
             (sample_sidebar, NextPage); (sample_sidebar, PreviousPage)]
            fresh_session
            (sample_world (answers (PyList (replicate 10 acme_job))))))
  = 10%Z.
Proof. vm_compute. reflexivity. Qed.

(** With another page size in between, the offset can leave the grid of
    pages and fall below 0. *)
Example paging_below_zero :
  page_offset
    (fst (interact sample_str sample_secrets
            [(sample_sidebar, SearchJobs); (sample_sidebar, NextPage);
             (Sidebar "Pune" true 7 25, PreviousPage)]
            fresh_session
            (sample_world (answers (PyList (replicate 10 acme_job))))))
  = (-15)%Z.
Proof. vm_compute. reflexivity. Qed.

Lemma init_unconfigured (secrets : gmap string (gmap string string)) :
  secret secrets "key" = None \/ secret secrets "key" = Some ""
  \/ secret secrets "host" = None \/ secret secrets "host" = Some "" ->
  falsy_str (api_key (__init__ secrets))
  || falsy_str (api_host (__init__ secrets)) = true.
Proof.
  intros H. rewrite init_of_secrets.
  destruct (secret secrets "key") as [key|], (secret secrets "host") as [host|];
    simpl; try done.
  destruct H as [H | [[= ->] | [H | [= ->]]]]; try done.
  by rewrite orb_true_r.
Qed.

(** X21: when the secrets lack the key or the host, or hold an empty one,
    every searching run shows the error "API credentials not configured",
    stores that failure, keeps the page offset and sends nothing. *)
Theorem page_without_credentials (py_str : pyval -> string)
    (secrets : gmap string (gmap string string)) (sb : sidebar)
    (clicked : button) (st : session_state) (w : world) :
  secret secrets "key" = None \/ secret secrets "key" = Some ""
  \/ secret secrets "host" = None \/ secret secrets "host" = Some "" ->
  clicked = SearchJobs \/ is_Some (search_results st) ->
  main py_str secrets sb clicked st w
  = (Ok (ErrorMessage "❌ Error: API credentials not configured"),
     Session (page_offset st) (Some (failure "API credentials not configured")),
     w).
Proof.
  intros Hsecrets Hs. unfold main.
  assert (bool_decide (clicked = SearchJobs)
          || bool_decide (is_Some (search_results st)) = true) as ->.
  { destruct Hs as [H|H];
      [rewrite (bool_decide_eq_true_2 _ H)
      | rewrite (bool_decide_eq_true_2 _ H), orb_true_r]; done. }
  unfold search_sap_jobs. by rewrite (init_unconfigured secrets Hsecrets).
Qed.

Lemma page_without_credentials_witness :
  main sample_str partial_secrets sample_sidebar SearchJobs fresh_session
    (sample_world (answers (PyList mixed_batch)))
  = (Ok (ErrorMessage "❌ Error: API credentials not configured"),
     Session (page_offset fresh_session)
       (Some (failure "API credentials not configured")),
     sample_world (answers (PyList mixed_batch))).
Proof.
  apply (page_without_credentials sample_str partial_secrets sample_sidebar
           SearchJobs fresh_session
           (sample_world (answers (PyList mixed_batch))));
    [right; right; left; reflexivity | by left].
Defined.



